(** * CDOE Feedback Analytics Dashboard: the aggregation pipeline of [app.py]

    A shallow embedding of the data pipeline of [src/app.py] (loading and
    normalising the uploaded files, mode classification, column
    classification, numeric coercion, subject block detection, the
    aggregators and the export), and the properties the specification
    states about it.

    Modelling conventions.
    - Text is a [string] of bytes.  [str.lower] and [str.strip] are modelled
      on the ASCII range (letters A-Z, and the ASCII characters for which
      Python's [str.isspace] holds); every keyword the program looks for is
      ASCII.
    - A cell of a data frame is a number, a text or the missing value
      (pandas' NaN/None).  Numbers are exact rationals ([Qc]): rounding
      errors and the infinities of binary floating point are outside these
      frames.
    - What pandas does and the repository does not define (parsing a text as
      a number in [pd.to_numeric], printing a number in [astype(str)]) is
      the interface [Pandas]; every theorem holds for all its instances.
    - A data frame is its list of column labels and its list of rows, a row
      being a finite map from labels to cells; a label a row does not bind
      reads as the missing value, which is what [pd.concat] leaves in the
      columns a file does not have.
    - The module [Wide] embeds the coercion and the tabs 4 and 5 a second
      time, over columns that carry their dtype: float64 with its
      infinities and NaN, datetime64 with NaT, object.  It is there for the
      inputs on which the dtype decides what the program does, which the
      frames of cells cannot express. *)

From Stdlib Require Import Ascii String QArith Qcanon Qround Qabs Lqa.
From stdpp Require Import base option list numbers strings pretty gmap fin_maps sorting.

Local Open Scope string_scope.
Local Open Scope list_scope.

(** ** Text *)

Module Text.

(** [str.lower] on one character. *)
Definition lower_ascii (a : ascii) : ascii :=
  let n := nat_of_ascii a in
  if (65 <=? n)%nat && (n <=? 90)%nat then ascii_of_nat (n + 32) else a.

(** [str.lower]. *)
Fixpoint lower (s : string) : string :=
  match s with
  | "" => ""
  | String a s' => String (lower_ascii a) (lower s')
  end.

(** [str.isspace] on one ASCII character: tab, line feed, vertical tab,
    form feed, carriage return, the four separators 28-31 and space. *)
Definition isspace (a : ascii) : bool :=
  let n := nat_of_ascii a in
  ((9 <=? n)%nat && (n <=? 13)%nat) || ((28 <=? n)%nat && (n <=? 32)%nat).

(** [str.lstrip]. *)
Fixpoint lstrip (s : string) : string :=
  match s with
  | "" => ""
  | String a s' => if isspace a then lstrip s' else s
  end.

(** [str.rstrip]: a character is dropped when it is a space and all that
    follows it has been dropped. *)
Fixpoint rstrip (s : string) : string :=
  match s with
  | "" => ""
  | String a s' =>
      match rstrip s' with
      | "" => if isspace a then "" else String a ""
      | r => String a r
      end
  end.

(** [str.strip]. *)
Definition strip (s : string) : string := rstrip (lstrip s).

(** [s.startswith(k)]. *)
Fixpoint startswith (k s : string) : bool :=
  match k, s with
  | "", _ => true
  | String _ _, "" => false
  | String a k', String b s' => bool_decide (a = b) && startswith k' s'
  end.

(** [k in s] for two texts. *)
Fixpoint contains (k s : string) : bool :=
  startswith k s ||
  match s with
  | "" => false
  | String _ s' => contains k s'
  end.

(** [k] occurs in [s]: the meaning of [k in s]. *)
Definition occurs_in (k s : string) : Prop :=
  ∃ pre post, s = pre +:+ k +:+ post.

(** [s] is white space only. *)
Fixpoint blank (s : string) : Prop :=
  match s with
  | "" => True
  | String a s' => isspace a = true ∧ blank s'
  end.

End Text.

(** ** Mode classification (lines 55-63) *)

Inductive Mode := Distance | DTL | Online | Unknown.

#[global] Instance Mode_eq_dec : EqDecision Mode.
Proof. solve_decision. Defined.

(** The label [detect_mode] returns. *)
Definition mode_label (m : Mode) : string :=
  match m with
  | Distance => "Distance"
  | DTL => "DTL"
  | Online => "Online"
  | Unknown => "Unknown"
  end.

Definition detect_mode (x : string) : Mode :=
  let x := Text.lower x in
  if Text.contains "distance" x then Distance
  else if Text.contains "dtl" x then DTL
  else if Text.contains "online" x then Online
  else Unknown.

(** ** Data frames *)

(** A cell: a number, a text, or the missing value (NaN, None). *)
Inductive cell :=
  | CNum (q : Qc)
  | CText (s : string)
  | CMissing.

#[global] Instance cell_eq_dec : EqDecision cell.
Proof. solve_decision. Defined.

#[global] Instance cell_inhabited : Inhabited cell := populate CMissing.

(** What the program asks of pandas on one value. *)
Class Pandas := {
  (** [pd.to_numeric(_, errors="coerce")] on a text: its number, or [None]
      (NaN) when the text is not one. *)
  parse_number : string → option Qc;
  (** [str] of a number, as [astype(str)] prints it. *)
  number_repr : Qc → string;
}.

(** A row binds column labels to cells. *)
Abbreviation row := (gmap string cell).

(** A data frame: the column labels, in column order, and the rows, in
    index order.  Labels are meant to be distinct ([NoDup]). *)
Record DataFrame := {
  columns : list string;
  rows : list row;
}.

(** An uploaded file as [pd.read_csv] / [pd.read_excel] return it: the
    file's name, the labels of the header and the rows of cells, each in the
    order of the header. *)
Record RawFile := {
  name : string;
  header : list cell;
  body : list (list cell);
}.

(** The value a row has in a column. *)
Definition cell_at (r : row) (c : string) : cell := default CMissing (r !! c).

(** [df[c]]: the column as a series. *)
Definition column (df : DataFrame) (c : string) : list cell :=
  (λ r, cell_at r c) <$> rows df.

(** [df[mask]]: the rows a predicate keeps; the columns stay. *)
Definition select_rows (p : row → bool) (df : DataFrame) : DataFrame :=
  {| columns := columns df; rows := filter (λ r, p r = true) (rows df) |}.

(** [df[c] = v] for one value per row: the column is overwritten in place
    when the label exists and appended otherwise. *)
Definition assign_column (c : string) (v : row → cell) (df : DataFrame)
  : DataFrame :=
  {| columns := if decide (c ∈ columns df) then columns df
                else columns df ++ [c];
     rows := (λ r, <[c := v r]> r) <$> rows df |}.

(** The distinct elements of a list in the order of their first
    occurrence ([unique]). *)
Definition uniq {A} `{EqDecision A} (l : list A) : list A :=
  reverse (remove_dups (reverse l)).

(** [series.isin(values)] on one cell, for a list of texts. *)
Definition isin (x : cell) (values : list string) : bool :=
  match x with
  | CText s => bool_decide (s ∈ values)
  | _ => false
  end.

(** The file a row came from: the text of its [source_file] cell, which
    [load_file] sets in every row. *)
Definition origin (r : row) : string :=
  match cell_at r "source_file" with
  | CText s => s
  | _ => ""
  end.

(** ** What a tab shows *)

(** A tab ends by showing a result, by [st.error] or [st.warning] with a
    message and nothing else, or by an exception. *)
Inductive outcome (A : Type) :=
  | Shown (a : A)
  | StError (msg : string)
  | StWarning (msg : string)
  | Raised (exn : string).
Arguments Shown {A} a.
Arguments StError {A} msg.
Arguments StWarning {A} msg.
Arguments Raised {A} exn.

(** The order of [value_counts]: the larger count first. *)
Definition count_ge (a b : string * nat) : Prop := (b.2 ≤ a.2)%nat.

#[global] Instance count_ge_dec : RelDecision count_ge.
Proof. intros a b. unfold count_ge. apply _. Defined.

(** Sorting by descending count: a row goes before the first row whose
    count is not larger than its own. *)
Fixpoint insert_desc (x : string * nat) (l : list (string * nat))
  : list (string * nat) :=
  match l with
  | [] => [x]
  | y :: l' => if decide (count_ge x y) then x :: l else y :: insert_desc x l'
  end.

Definition sort_desc (l : list (string * nat)) : list (string * nat) :=
  foldr insert_desc [] l.

Section Pipeline.
Context `{Pandas}.

(** [astype(str)] on one cell. *)
Definition astype_str (x : cell) : string :=
  match x with
  | CNum q => number_repr q
  | CText s => s
  | CMissing => "nan"
  end.

(** *** Loading (lines 38-49) *)

(** [df.columns.astype(str).str.strip().str.lower()] on one label. *)
Definition normalize_label (h : cell) : string :=
  Text.lower (Text.strip (astype_str h)).

(** One row of a file under the normalised labels. *)
Definition labelled (labels : list string) (cells : list cell) : row :=
  list_to_map (zip labels cells).

(** The body of the loop over the uploaded files. *)
Definition load_file (f : RawFile) : DataFrame :=
  let labels := normalize_label <$> header f in
  assign_column "source_file" (λ _, CText (name f))
    {| columns := labels; rows := labelled labels <$> body f |}.

(** [pd.concat(dfs, ignore_index=True)] on frames with distinct labels: the
    union of the columns in the order they first appear, and the rows of
    each frame in turn; a row has no cell under the labels of the other
    frames. *)
Definition concat_frames (dfs : list DataFrame) : DataFrame :=
  {| columns := uniq (concat (columns <$> dfs));
     rows := concat (rows <$> dfs) |}.

Definition load_data (files : list RawFile) : DataFrame :=
  concat_frames (load_file <$> files).

(** *** Filters (lines 65-81) *)

(** [data["mode"] = data["source_file"].apply(detect_mode)]. *)
Definition add_mode (data : DataFrame) : DataFrame :=
  assign_column "mode" (λ r, CText (mode_label (detect_mode (origin r)))) data.

(** The two [isin] filters of the side bar. *)
Definition apply_filters (modes files_sel : list string) (data : DataFrame)
  : DataFrame :=
  select_rows (λ r, isin (cell_at r "source_file") files_sel)
    (select_rows (λ r, isin (cell_at r "mode") modes) data).

(** The filtered table of a run. *)
Definition filtered_of (files : list RawFile) (modes files_sel : list string)
  : DataFrame :=
  apply_filters modes files_sel (add_mode (load_data files)).

(** *** Numeric coercion (lines 20-21) and means *)

(** [pd.to_numeric(_, errors="coerce")] on one cell. *)
Definition to_numeric (x : cell) : option Qc :=
  match x with
  | CNum q => Some q
  | CText s => parse_number s
  | CMissing => None
  end.

Definition safe_num (s : list cell) : list (option Qc) := to_numeric <$> s.

(** [series.notna().sum()]. *)
Definition notna_sum (s : list (option Qc)) : nat :=
  length (filter is_Some s).

(** A column has a value that coerces to a number. *)
Definition has_number (df : DataFrame) (c : string) : Prop :=
  ∃ x, x ∈ column df c ∧ is_Some (to_numeric x).

(** The values of a numeric series that are present. *)
Definition present (s : list (option Qc)) : list Qc := omap id s.

Definition Qc_sum (vs : list Qc) : Qc := foldr Qcplus 0%Qc vs.

(** The arithmetic mean of a list of numbers; none of the empty list. *)
Definition arithmetic_mean (vs : list Qc) : option Qc :=
  match vs with
  | [] => None
  | _ => Some (Qc_sum vs / Qc_of_Z (Z.of_nat (length vs)))%Qc
  end.

(** [series.mean()]: missing values are skipped; NaN ([None]) when no value
    is present. *)
Definition mean (s : list (option Qc)) : option Qc :=
  arithmetic_mean (present s).

(** The integer nearest to [q], a tie going to the even one. *)
Definition round_half_even (q : Q) : Z :=
  let f := Qfloor q in
  match Qcompare (q - inject_Z f)%Q (1 # 2)%Q with
  | Lt => f
  | Gt => (f + 1)%Z
  | Eq => if Z.even f then f else (f + 1)%Z
  end.

(** [round(x, 2)] on a number. *)
Definition round2 (q : Qc) : Qc :=
  Q2Qc (inject_Z (round_half_even (this q * 100)%Q) / 100)%Q.

(** [round(x, 2)] on a mean: NaN stays NaN. *)
Definition round_mean (m : option Qc) : option Qc := round2 <$> m.

(** *** Tab 1, overview (lines 98-108) *)

Definition is_rating_label (c : string) : bool :=
  Text.contains "rate" c || Text.contains "rating" c.

Definition rating_cols (df : DataFrame) : list string :=
  filter (λ c, is_rating_label c = true) (columns df).

(** [df[cols].apply(safe_num).stack()]: the coerced cells row after row,
    each row in column order. *)
Definition stack_numeric (cols : list string) (df : DataFrame)
  : list (option Qc) :=
  concat ((λ r, (λ c, to_numeric (cell_at r c)) <$> cols) <$> rows df).

Definition overall_avg (df : DataFrame) : option Qc :=
  mean (stack_numeric (rating_cols df) df).

(** [len(filtered)], the figure of the first metric. *)
Definition total_responses (df : DataFrame) : nat := length (rows df).

(** *** Tab 2, delivery of lecture per file (lines 117-127) *)

Definition is_anchor_label (c : string) : bool :=
  Text.contains "delivery of lecture" c.

(** [next((c for c in df.columns if "delivery of lecture" in c), None)]. *)
Definition find_anchor (df : DataFrame) : option string :=
  head (filter (λ c, is_anchor_label c = true) (columns df)).

(** The keys of [groupby("source_file")]: the distinct file names, sorted. *)
Definition group_keys (df : DataFrame) : list string :=
  merge_sort (≤)%string (uniq (origin <$> rows df)).

(** The rows of one group. *)
Definition group_rows (df : DataFrame) (f : string) : DataFrame :=
  select_rows (λ r, bool_decide (origin r = f)) df.

(** [groupby("source_file", as_index=False)["val"].mean()] where [val] is
    the coerced column [col]. *)
Definition groupby_mean (col : string) (df : DataFrame)
  : list (string * option Qc) :=
  (λ f, (f, mean (safe_num (column (group_rows df f) col)))) <$> group_keys df.


Definition delivery_tab (df : DataFrame) : outcome (list (string * option Qc)) :=
  match find_anchor df with
  | None => StError "Delivery of Lecture column not found."
  | Some col => Shown (groupby_mean col df)
  end.

(** *** Tab 3, learner support centre (lines 145-159) *)

(** The series [lsc]: the column of the Distance rows, missing values
    dropped, as stripped texts. *)
Definition lsc_series (df : DataFrame) : list string :=
  (λ x, Text.strip (astype_str x)) <$>
    filter (λ x, x ≠ CMissing)
      (column (select_rows (λ r, bool_decide (cell_at r "mode" = CText "Distance")) df)
         "learner support centre").

(** The number of Distance rows whose value in the learner support centre
    column is present and, stripped, is [v]. *)
Definition distance_count (df : DataFrame) (v : string) : nat :=
  length
    (filter
       (λ r, cell_at r "mode" = CText "Distance" ∧
             cell_at r "learner support centre" ≠ CMissing ∧
             Text.strip (astype_str (cell_at r "learner support centre")) = v)
       (rows df)).

(** How often a value occurs in a series. *)
Definition occurrences (v : string) (s : list string) : nat :=
  length (filter (λ x, x = v) s).

(** [series.value_counts().reset_index()]: one row per distinct value with
    the number of its occurrences, the larger counts first.  pandas leaves
    the order of values of equal count to its sort; here they keep the order
    in which they first occur. *)
Definition value_counts (s : list string) : list (string * nat) :=
  sort_desc ((λ v, (v, occurrences v s)) <$> uniq s).

Definition lsc_tab (df : DataFrame) : outcome (list (string * nat)) :=
  if decide ("learner support centre" ∈ columns df) then
    match lsc_series df with
    | [] => StWarning "Learner Support Centre values exist but are empty after filters."
    | lsc => Shown (value_counts lsc)
    end
  else StError "Learner Support Centre column not present.".

(** *** Tab 4, master dashboard (lines 176-189) *)

Definition param_keywords : list string :=
  ["ease"; "admission"; "support"; "syllabus";
   "curriculum"; "self-learning"; "quality"].

(** [any(k in c for k in [...])]. *)
Definition is_param_label (c : string) : bool :=
  existsb (λ k, Text.contains k c) param_keywords.

(** The loop over the columns: the rows appended to [params]. *)
Fixpoint params_of (df : DataFrame) (cols : list string)
  : list (string * option Qc) :=
  match cols with
  | [] => []
  | c :: cols =>
      if is_param_label c then
        let num := safe_num (column df c) in
        if (0 <? notna_sum num)%nat
        then (c, round_mean (mean num)) :: params_of df cols
        else params_of df cols
      else params_of df cols
  end.

Definition params (df : DataFrame) : list (string * option Qc) :=
  params_of df (columns df).

(** *** Tab 5, subject-wise comparison (lines 205-237) *)

(** [index.get_loc(c)]: the position of a label; it is an integer only for
    a label that occurs once ([None] otherwise, where [+ 1] raises). *)
Definition get_loc (c : string) (cols : list string) : option nat :=
  match list_find (λ x, x = c) cols with
  | Some (i, _) =>
      if decide (c ∈ drop (S i) cols) then None else Some i
  | None => None
  end.

(** The loop of lines 214-219: the leading columns of [tail] that have a
    value that coerces, up to the first that has none. *)
Fixpoint scan_subjects (df : DataFrame) (tail : list string) : list string :=
  match tail with
  | [] => []
  | c :: tail =>
      if (0 <? notna_sum (safe_num (column df c)))%nat
      then c :: scan_subjects df tail
      else []
  end.

(** [df[c].dropna().astype(str).iloc[0]]; [None] is the [IndexError] of
    [iloc[0]] on an empty series. *)
Definition display_name (df : DataFrame) (c : string) : option string :=
  head (astype_str <$> filter (λ x, x ≠ CMissing) (column df c)).

(** One pass of the loop of lines 226-237. *)
Definition subject_row (df : DataFrame) (c : string)
  : option (string * option Qc) :=
  name ← display_name df c;
  Some (name, round_mean (mean (safe_num (column df c)))).

(** The subject block (lines 205-219), when the tab gets that far. *)
Definition subject_cols (df : DataFrame) : option (list string) :=
  section ← find_anchor df;
  i ← get_loc section (columns df);
  Some (scan_subjects df (drop (S i) (columns df))).

Definition subject_tab (df : DataFrame) : outcome (list (string * option Qc)) :=
  match find_anchor df with
  | None => StError "Delivery of Lecture section not found."
  | Some section =>
      match get_loc section (columns df) with
      | None => Raised "TypeError"
      | Some i =>
          match scan_subjects df (drop (S i) (columns df)) with
          | [] => StError "Subject numeric columns not detected."
          | cols =>
              match mapM (subject_row df) cols with
              | Some rows => Shown rows
              | None => Raised "IndexError"
              end
          end
      end
  end.

(** *** The side bar (lines 67-81) *)

(** The mode of a row: the text of its [mode] cell, which [add_mode] sets
    in every row. *)
Definition mode_of (r : row) : string :=
  match cell_at r "mode" with
  | CText s => s
  | _ => ""
  end.

(** [sorted(data["mode"].unique())]: the options, and the default, of the
    mode selector. *)
Definition mode_options (data : DataFrame) : list string :=
  merge_sort (≤)%string (uniq (mode_of <$> rows data)).

(** [sorted(filtered["source_file"].unique())]: the options, and the
    default, of the file selector. *)
Definition file_options (filtered : DataFrame) : list string :=
  merge_sort (≤)%string (uniq (origin <$> rows filtered)).

(** The filtered table of a run in which the user leaves both selectors at
    their defaults. *)
Definition filtered_default (files : list RawFile) : DataFrame :=
  let data := add_mode (load_data files) in
  let modes := mode_options data in
  let filtered := select_rows (λ r, isin (cell_at r "mode") modes) data in
  let files_sel := file_options filtered in
  select_rows (λ r, isin (cell_at r "source_file") files_sel) filtered.

(** *** Export (lines 13-18) *)





End Pipeline.

(** ** An instance and frames for the examples *)

(** The value of a text of decimal digits. *)
Fixpoint digits_value (acc : nat) (s : string) : option nat :=
  match s with
  | "" => Some acc
  | String a s' => d ← Ascii.is_nat a; digits_value (10 * acc + d) s'
  end.

(** An instance in which the texts that are numbers are the whole numbers
    written in decimal digits, and a number prints as a fraction. *)
#[global] Instance digits_pandas : Pandas := {|
  parse_number s :=
    match s with
    | "" => None
    | _ => (λ n, Qc_of_Z (Z.of_nat n)) <$> digits_value 0 s
    end;
  number_repr q := pretty (Qnum q) +:+ "/" +:+ pretty (Zpos (Qden q));
|}.

Definition num (z : Z) : cell := CNum (Qc_of_Z z).

(** A file with the columns A (anchor), B, C (numeric), D (not numeric) and
    E (numeric). *)
Definition survey_file : RawFile := {|
  name := "MBA_Distance.csv";
  header := [CText "Delivery of Lecture"; CText " B "; CText "C"; CText "D";
             CText "E"];
  body := [[CText "Subject"; num 4; CText "5"; CText "good"; num 3];
           [CMissing; CMissing; num 3; CMissing; num 5]];
|}.

Definition survey : DataFrame :=
  filtered_of [survey_file] ["Distance"] ["MBA_Distance.csv"].

(** Two files of one survey, in the two spellings of the same labels. *)
Definition feedback_files : list RawFile := [
  {| name := "MBA_Distance.csv";
     header := [CText "Delivery of Lecture (1-5)"; CText "Rate the Faculty";
                CText "Quality of Syllabus"; CText "Learner Support Centre"];
     body := [[num 1; num 4; CText "5"; CText " Pune "];
              [num 2; CMissing; CText "n/a"; CText "Pune"];
              [CText "absent"; num 5; num 2; CText "pune"];
              [CMissing; CMissing; CMissing; CMissing]] |};
  {| name := "BBA_Online.xlsx";
     header := [CText " delivery of lecture (1-5) "; CText "RATE THE FACULTY";
                CText "Admission Support"];
     body := [[num 3; num 2; CText "none"];
              [num 4; num 3; CMissing];
              [num 5; CText "4"; CMissing]] |}
].

Definition feedback : DataFrame :=
  filtered_of feedback_files ["Distance"; "Online"]
    ["MBA_Distance.csv"; "BBA_Online.xlsx"].

(** A text that is empty or starts with a character that is not white
    space. *)
Definition starts_clean (s : string) : Prop :=
  match s with
  | "" => True
  | String a _ => Text.isspace a = false
  end.

(** A text that is empty or ends with a character that is not white
    space. *)
Fixpoint ends_clean (s : string) : Prop :=
  match s with
  | "" => True
  | String a s' =>
      match s' with
      | "" => Text.isspace a = false
      | _ => ends_clean s'
      end
  end.

(** A capital letter of the ASCII range, A to Z. *)
Definition is_capital (a : ascii) : Prop :=
  (65 ≤ nat_of_ascii a ≤ 90)%nat.

(** A text in which no capital letter of the ASCII range occurs. *)
Fixpoint no_capital (s : string) : Prop :=
  match s with
  | "" => True
  | String a s' => ¬ is_capital a ∧ no_capital s'
  end.

(** The unified table of the two files, and its first two rows. *)
Definition feedback_unified : DataFrame := add_mode (load_data feedback_files).

Definition first_response : row := default ∅ (rows feedback_unified !! 0%nat).

Definition second_response : row := default ∅ (rows feedback_unified !! 1%nat).

(** A Distance file in which one centre is a text of white space only. *)
Definition centres_file : RawFile := {|
  name := "MCA_Distance.csv";
  header := [CText "Learner Support Centre"];
  body := [[CText "Pune"]; [CText "  "]; [CMissing]];
|}.

Definition centres : DataFrame :=
  filtered_of [centres_file] ["Distance"] ["MCA_Distance.csv"].

Definition blank_centre_row : row := default ∅ (rows centres !! 1%nat).

(** ** Columns with a dtype: tabs 4 and 5 once more *)

(** The frames above hold one kind of number and one missing value.  What
    pandas keeps for a column is wider: a dtype, and with it the infinities
    and the NaN of float64 and the NaT of datetime64.  Lines 20-21, 176-187
    and 205-237 are embedded a second time here, over columns with their
    dtype, for the inputs on which the difference shows.  Finite values
    stay exact rationals, as above. *)

Module Wide.

(** A float64 that is not NaN.  NaN is the [None] of [option float64]. *)
Inductive float64 :=
  | Fin (q : Qc)
  | PInf
  | NInf.

(** A present value of a column of dtype object: a text or a number. *)
Inductive object :=
  | OText (s : string)
  | ONum (x : float64).

(** A column: its dtype and its values, [None] being NaN in a float64
    column, NaT in a datetime64 column (whose present values are
    nanoseconds since the epoch) and None/NaN in an object column.  A
    column of whole numbers is read as a [Float64] one. *)
Inductive Series :=
  | Float64 (values : list (option float64))
  | Datetime64 (values : list (option Z))
  | Object (values : list (option object)).

(** What the program asks of pandas on one value. *)
Class Library := {
  (** [pd.to_numeric(_, errors="coerce")] on a text; [None] is NaN. *)
  to_float : string → option float64;
  (** [str] of a float, as [astype(str)] prints it. *)
  float_repr : float64 → string;
  (** [str] of a time stamp. *)
  datetime_repr : Z → string;
}.

(** A data frame: its columns in column order, each under its label. *)
Definition Frame := list (string * Series).

Definition columns (df : Frame) : list string := df.*1.

(** [df[c]] for a label of the frame. *)
Fixpoint column (df : Frame) (c : string) : Series :=
  match df with
  | [] => Object []
  | (label, s) :: df' => if decide (label = c) then s else column df' c
  end.

(** The int64 that stands for NaT. *)
Definition iNaT : Z := (- 2 ^ 63)%Z.

(** Float addition; NaN is absorbing and the two infinities add to NaN. *)
Definition add (x y : option float64) : option float64 :=
  match x, y with
  | Some (Fin a), Some (Fin b) => Some (Fin (a + b)%Qc)
  | Some PInf, Some NInf | Some NInf, Some PInf => None
  | Some PInf, Some _ | Some _, Some PInf => Some PInf
  | Some NInf, Some _ | Some _, Some NInf => Some NInf
  | _, _ => None
  end.

(** Division of a sum by a positive count. *)
Definition div_count (x : option float64) (n : nat) : option float64 :=
  match x with
  | Some (Fin q) => Some (Fin (q / Qc_of_Z (Z.of_nat n))%Qc)
  | other => other
  end.

(** [round(x, 2)] on a float: NaN and the infinities stay. *)
Definition round (x : option float64) : option float64 :=
  match x with
  | Some (Fin q) => Some (Fin (round2 q))
  | other => other
  end.

(** [series.notna().sum()]. *)
Definition notna_sum (s : list (option float64)) : nat :=
  length (filter is_Some s).

(** [series.mean()]: NaN is skipped, the rest is summed from the left and
    divided by its count; NaN when nothing is left. *)
Definition mean (s : list (option float64)) : option float64 :=
  match omap id s with
  | [] => None
  | vs => div_count (foldl add (Some (Fin 0%Qc)) (Some <$> vs)) (length vs)
  end.

Section Tabs.
Context `{Library}.

(** [pd.to_numeric(s, errors="coerce")] (lines 20-21).  A float64 column is
    returned as it is.  A datetime64 column is returned as its int64 view,
    in which NaT is the number [iNaT].  In an object column a text is
    parsed and what is missing is NaN. *)
Definition to_numeric (s : Series) : list (option float64) :=
  match s with
  | Float64 vs => vs
  | Datetime64 vs => (λ v, Some (Fin (Qc_of_Z (default iNaT v)))) <$> vs
  | Object vs =>
      (λ v, match v with
            | Some (OText t) => to_float t
            | Some (ONum x) => Some x
            | None => None
            end) <$> vs
  end.

Definition safe_num (s : Series) : list (option float64) := to_numeric s.

(** [s.dropna().astype(str)]. *)
Definition dropna_astype_str (s : Series) : list string :=
  match s with
  | Float64 vs => float_repr <$> omap id vs
  | Datetime64 vs => datetime_repr <$> omap id vs
  | Object vs =>
      (λ v, match v with
            | OText t => t
            | ONum x => float_repr x
            end) <$> omap id vs
  end.

(** The loop of lines 177-187. *)
Fixpoint params_of (df : Frame) (cols : list string)
  : list (string * option float64) :=
  match cols with
  | [] => []
  | c :: cols =>
      if is_param_label c then
        let num := safe_num (column df c) in
        if (0 <? notna_sum num)%nat
        then (c, round (mean num)) :: params_of df cols
        else params_of df cols
      else params_of df cols
  end.

Definition params (df : Frame) : list (string * option float64) :=
  params_of df (columns df).

(** [next((c for c in df.columns if "delivery of lecture" in c), None)]. *)
Definition find_anchor (df : Frame) : option string :=
  head (filter (λ c, is_anchor_label c = true) (columns df)).

(** The loop of lines 214-219. *)
Fixpoint scan_subjects (df : Frame) (tail : list string) : list string :=
  match tail with
  | [] => []
  | c :: tail =>
      if (0 <? notna_sum (safe_num (column df c)))%nat
      then c :: scan_subjects df tail
      else []
  end.

(** The subject block (lines 205-219), when the tab gets that far. *)
Definition subject_cols (df : Frame) : option (list string) :=
  section ← find_anchor df;
  i ← get_loc section (columns df);
  Some (scan_subjects df (drop (S i) (columns df))).

(** [df[c].dropna().astype(str).iloc[0]]; [None] is the [IndexError] of
    [iloc[0]] on an empty series. *)
Definition display_name (df : Frame) (c : string) : option string :=
  head (dropna_astype_str (column df c)).

(** One pass of the loop of lines 226-237. *)
Definition subject_row (df : Frame) (c : string)
  : option (string * option float64) :=
  name ← display_name df c;
  Some (name, round (mean (safe_num (column df c)))).

Definition subject_tab (df : Frame)
  : outcome (list (string * option float64)) :=
  match find_anchor df with
  | None => StError "Delivery of Lecture section not found."
  | Some section =>
      match get_loc section (columns df) with
      | None => Raised "TypeError"
      | Some i =>
          match scan_subjects df (drop (S i) (columns df)) with
          | [] => StError "Subject numeric columns not detected."
          | cols =>
              match mapM (subject_row df) cols with
              | Some rows => Shown rows
              | None => Raised "IndexError"
              end
          end
      end
  end.

End Tabs.

(** The filtered table of a run on the file [x_distance.csv], whose column
    Quality holds the two cells [inf] and [-inf], which [pd.read_csv] reads
    as the two infinities. *)
Definition ratings : Frame := [
  ("delivery of lecture", Object [Some (OText "good"); Some (OText "fair")]);
  ("quality", Float64 [Some PInf; Some NInf]);
  ("source_file", Object [Some (OText "x_distance.csv");
                          Some (OText "x_distance.csv")]);
  ("mode", Object [Some (OText "Distance"); Some (OText "Distance")])
].

(** The filtered table of a run on two Excel files, [a_distance.xlsx] with
    the columns Delivery of Lecture and Exam Date, the second a column of
    dates, and [b_online.xlsx] with the column Delivery of Lecture only and
    one row, when only the mode Online is selected: the one row is that of
    the second file, and its date, which [pd.concat] fills in, is NaT. *)
Definition sittings : Frame := [
  ("delivery of lecture", Float64 [Some (Fin (Qc_of_Z 4))]);
  ("exam date", Datetime64 [None]);
  ("source_file", Object [Some (OText "b_online.xlsx")]);
  ("mode", Object [Some (OText "Online")])
].

End Wide.

(** * Properties *)

(** ** Text *)

Lemma startswith_spec (k s : string) :
  Text.startswith k s = true ↔ ∃ post, s = k +:+ post.
Proof.
  revert s. induction k as [|a k IH]; intros s; simpl.
  - split; [intros _; by exists s | done].
  - destruct s as [|b s].
    + split; [done | intros [post Hpost]; discriminate].
    + rewrite andb_true_iff, bool_decide_eq_true, IH. split.
      * intros [-> [post ->]]. by exists post.
      * intros [post Hpost]. injection Hpost as -> ->. eauto.
Qed.

Lemma contains_spec (k s : string) :
  Text.contains k s = true ↔ Text.occurs_in k s.
Proof.
  unfold Text.occurs_in. induction s as [|b s IH]; simpl.
  - rewrite orb_false_r, startswith_spec. split.
    + intros [post Hpost]. by exists "", post.
    + intros [[|c pre] [post Hpost]]; [by exists post | discriminate].
  - rewrite orb_true_iff, startswith_spec, IH. split.
    + intros [[post Hpost] | (pre & post & ->)].
      * by exists "", post.
      * by exists (String b pre), post.
    + intros [[|c pre] [post Hpost]].
      * left. by exists post.
      * right. injection Hpost as -> ->. by exists pre, post.
Qed.

Lemma contains_false (k s : string) :
  Text.contains k s = false ↔ ¬ Text.occurs_in k s.
Proof. rewrite <-contains_spec. by destruct (Text.contains k s). Qed.

(** ** Mode classification *)

(** C2. [detect_mode] is a function of the origin alone with values in the
    four modes; on the lower-cased origin it answers Distance exactly when
    "distance" occurs, DTL exactly when "distance" does not and "dtl" does,
    Online exactly when neither does and "online" does, and Unknown exactly
    when none of the three occurs; so an origin in which both "distance" and
    "dtl" occur is Distance, whatever the case of its letters. *)
Theorem detect_mode_ordered_scan (x : string) :
  let lx := Text.lower x in
  (detect_mode x = Distance ∨ detect_mode x = DTL ∨
   detect_mode x = Online ∨ detect_mode x = Unknown) ∧
  (detect_mode x = Distance ↔ Text.occurs_in "distance" lx) ∧
  (detect_mode x = DTL ↔
     ¬ Text.occurs_in "distance" lx ∧ Text.occurs_in "dtl" lx) ∧
  (detect_mode x = Online ↔
     ¬ Text.occurs_in "distance" lx ∧ ¬ Text.occurs_in "dtl" lx ∧
     Text.occurs_in "online" lx) ∧
  (detect_mode x = Unknown ↔
     ¬ Text.occurs_in "distance" lx ∧ ¬ Text.occurs_in "dtl" lx ∧
     ¬ Text.occurs_in "online" lx) ∧
  (Text.occurs_in "distance" lx ∧ Text.occurs_in "dtl" lx →
     detect_mode x = Distance) ∧
  detect_mode "BCA_dtl_DISTANCE_2025.xlsx" = Distance ∧
  detect_mode "Dtl-Online.csv" = DTL.
Proof.
  intros lx. rewrite <-!contains_false, <-!contains_spec.
  assert (detect_mode x =
            if Text.contains "distance" lx then Distance
            else if Text.contains "dtl" lx then DTL
            else if Text.contains "online" lx then Online
            else Unknown) as -> by reflexivity.
  destruct (Text.contains "distance" lx), (Text.contains "dtl" lx),
    (Text.contains "online" lx);
    split_and!; first [reflexivity | intuition congruence].
Qed.

Section Properties.
Context `{Pandas}.

(** ** Numeric series *)

Lemma notna_sum_pos (s : list cell) :
  (0 <? notna_sum (safe_num s))%nat = true ↔
  ∃ x, x ∈ s ∧ is_Some (to_numeric x).
Proof.
  unfold notna_sum, safe_num. rewrite Nat.ltb_lt. split.
  - intros Hlen.
    destruct (filter is_Some (to_numeric <$> s)) as [|o l] eqn:Hf;
      [simpl in Hlen; lia|].
    assert (o ∈ filter is_Some (to_numeric <$> s)) as Ho
      by (rewrite Hf; left).
    apply list_elem_of_filter in Ho as [Hsome Hin].
    apply list_elem_of_fmap in Hin as (x & -> & Hx). eauto.
  - intros (x & Hx & Hsome).
    assert (to_numeric x ∈ filter is_Some (to_numeric <$> s)) as Hin.
    { apply list_elem_of_filter. split; [done|].
      apply list_elem_of_fmap. eauto. }
    destruct (filter is_Some (to_numeric <$> s)); [inversion Hin|simpl; lia].
Qed.

Lemma has_number_test (df : DataFrame) (c : string) :
  (0 <? notna_sum (safe_num (column df c)))%nat = true ↔ has_number df c.
Proof. apply notna_sum_pos. Qed.

(** ** Column positions *)

Lemma get_loc_NoDup (cols : list string) (i : nat) (c : string) :
  NoDup cols → cols !! i = Some c → get_loc c cols = Some i.
Proof.
  intros Hnd Hi. unfold get_loc.
  destruct (list_find (λ x, x = c) cols) as [[j y]|] eqn:Hfind.
  - apply list_find_Some in Hfind as (Hj & -> & _).
    assert (j = i) as -> by (eapply NoDup_lookup; eauto).
    rewrite decide_False; [done|].
    intros Hin. apply list_elem_of_lookup in Hin as [k Hk].
    rewrite lookup_drop in Hk.
    assert (S i + k = i) by (eapply NoDup_lookup; eauto). lia.
  - apply list_find_None in Hfind.
    rewrite Forall_forall in Hfind.
    exfalso. eapply Hfind; [|done]. by eapply list_elem_of_lookup_2.
Qed.

Lemma find_anchor_Some (df : DataFrame) (c : string) :
  find_anchor df = Some c ↔
  ∃ pre post, columns df = pre ++ c :: post ∧
    Text.occurs_in "delivery of lecture" c ∧
    Forall (λ x, ¬ Text.occurs_in "delivery of lecture" x) pre.
Proof.
  unfold find_anchor, is_anchor_label.
  induction (columns df) as [|x l IH].
  - split; [done|]. by intros ([|??] & ? & ? & _).
  - rewrite filter_cons. case_decide as Hx.
    + simpl. split.
      * intros [= ->]. exists [], l. by rewrite <-contains_spec.
      * intros ([|y pre] & post & Heq & Hc & Hpre).
        { by injection Heq as ->. }
        injection Heq as -> ->. inversion_clear Hpre as [|?? Hy _].
        by rewrite <-contains_spec in Hy.
    + rewrite IH. split.
      * intros (pre & post & -> & Hc & Hpre). exists (x :: pre), post.
        split_and!; [done..|]. constructor; [|done].
        by rewrite <-contains_spec.
      * intros ([|y pre] & post & Heq & Hc & Hpre).
        { injection Heq as -> ->. by rewrite <-contains_spec in Hc. }
        injection Heq as -> ->. inversion_clear Hpre. eauto.
Qed.


(** ** Subject block *)

Lemma scan_subjects_spec (df : DataFrame) (tail : list string) :
  ∃ rest, tail = scan_subjects df tail ++ rest ∧
    Forall (has_number df) (scan_subjects df tail) ∧
    match rest with [] => True | c :: _ => ¬ has_number df c end.
Proof.
  induction tail as [|c tail (rest & Heq & Hall & Hrest)]; simpl.
  - by exists [].
  - destruct (0 <? notna_sum (safe_num (column df c)))%nat eqn:Hc.
    + apply has_number_test in Hc. exists rest. simpl. rewrite <-Heq.
      split_and!; [done| |done]. by constructor.
    + exists (c :: tail). split_and!; [done|constructor|].
      rewrite <-has_number_test. by rewrite Hc.
Qed.


Lemma subject_block_core
    (df : DataFrame) (pre post : list string) (anchor : string) :
  NoDup (columns df) →
  columns df = pre ++ anchor :: post →
  find_anchor df = Some anchor →
  get_loc anchor (columns df) = Some (length pre) ∧
  drop (S (length pre)) (columns df) = post ∧
  subject_cols df = Some (scan_subjects df post).
Proof.
  intros Hnd Hcols Hanchor.
  assert (get_loc anchor (columns df) = Some (length pre)) as Hloc.
  { apply get_loc_NoDup; [done|]. rewrite Hcols. by rewrite list_lookup_middle. }
  assert (drop (S (length pre)) (columns df) = post) as Hdrop.
  { rewrite Hcols, cons_middle, app_assoc.
    rewrite drop_app_length'; [done|]. rewrite length_app. simpl. lia. }
  split_and!; [done..|]. unfold subject_cols. rewrite Hanchor. simpl.
  rewrite Hloc. simpl. by rewrite Hdrop.
Qed.


Lemma subject_cols_numeric (df : DataFrame) (block : list string) :
  subject_cols df = Some block → Forall (has_number df) block.
Proof.
  unfold subject_cols. intros Hblock.
  destruct (find_anchor df) as [section|]; [simpl in Hblock|done].
  destruct (get_loc section (columns df)) as [i|]; [simpl in Hblock|done].
  injection Hblock as <-.
  by destruct (scan_subjects_spec df (drop (S i) (columns df)))
    as (rest & _ & Hall & _).
Qed.


(** ** Master dashboard *)


Lemma present_safe_num (s : list cell) :
  present (safe_num s) = omap to_numeric s.
Proof.
  unfold present, safe_num.
  induction s as [|x s IH]; [done|]. csimpl. rewrite IH.
  by destruct (to_numeric x).
Qed.







(** ** Overview *)

Lemma Qc_sum_app (l k : list Qc) : Qc_sum (l ++ k) = (Qc_sum l + Qc_sum k)%Qc.
Proof.
  induction l as [|q l IH]; simpl.
  - by rewrite Qcplus_0_l.
  - rewrite IH. ring.
Qed.








(** ** Groups and counts *)

Lemma elem_of_uniq {A} `{EqDecision A} (l : list A) (x : A) :
  x ∈ uniq l ↔ x ∈ l.
Proof.
  unfold uniq. by rewrite elem_of_reverse, elem_of_remove_dups, elem_of_reverse.
Qed.

Lemma NoDup_uniq {A} `{EqDecision A} (l : list A) : NoDup (uniq l).
Proof. unfold uniq. rewrite reverse_Permutation. apply NoDup_remove_dups. Qed.

Lemma omap_fmap_compose {A B C} (f : A → B) (g : B → option C) (l : list A) :
  omap g (f <$> l) = omap (λ x, g (f x)) l.
Proof.
  induction l as [|x l IH]; [done|]. csimpl. rewrite IH.
  by destruct (g (f x)).
Qed.

Lemma elem_of_group_keys (df : DataFrame) (f : string) :
  f ∈ group_keys df ↔ ∃ r, r ∈ rows df ∧ origin r = f.
Proof.
  unfold group_keys.
  rewrite (merge_sort_Permutation (≤)%string), elem_of_uniq, list_elem_of_fmap.
  split; intros (r & ? & ?); eauto.
Qed.

Lemma NoDup_group_keys (df : DataFrame) : NoDup (group_keys df).
Proof.
  unfold group_keys. rewrite (merge_sort_Permutation (≤)%string).
  apply NoDup_uniq.
Qed.





(** ** Learner support centre *)

#[local] Instance count_ge_trans : Transitive count_ge.
Proof. unfold count_ge. intros a b c ??. lia. Qed.

Lemma insert_desc_Permutation (x : string * nat) (l : list (string * nat)) :
  insert_desc x l ≡ₚ x :: l.
Proof.
  induction l as [|y l IH]; simpl; [done|].
  case_decide; [done|]. rewrite IH. apply perm_swap.
Qed.

Lemma sort_desc_Permutation (l : list (string * nat)) : sort_desc l ≡ₚ l.
Proof.
  induction l as [|x l IH]; simpl; [done|].
  by rewrite insert_desc_Permutation, IH.
Qed.

Lemma insert_desc_Sorted (x : string * nat) (l : list (string * nat)) :
  Sorted count_ge l → Sorted count_ge (insert_desc x l).
Proof.
  induction l as [|y l IH]; intros Hs; simpl.
  - by repeat constructor.
  - case_decide as Hxy.
    + constructor; [done | by constructor].
    + apply Sorted_inv in Hs as [Hl Hhd]. constructor; [by apply IH|].
      assert (count_ge y x) as Hyx by (unfold count_ge in *; lia).
      destruct l as [|z l]; simpl; [by constructor|].
      case_decide; constructor; [done|]. by apply HdRel_inv in Hhd.
Qed.

Lemma sort_desc_Sorted (l : list (string * nat)) : Sorted count_ge (sort_desc l).
Proof.
  induction l as [|x l IH]; simpl; [constructor|].
  by apply insert_desc_Sorted.
Qed.

Lemma occurrences_pos (v : string) (s : list string) :
  v ∈ s ↔ (0 < occurrences v s)%nat.
Proof.
  unfold occurrences. split.
  - intros Hin.
    assert (v ∈ filter (λ x, x = v) s) as Hf by by apply list_elem_of_filter.
    destruct (filter (λ x, x = v) s); [inversion Hf | simpl; lia].
  - intros Hpos.
    destruct (filter (λ x, x = v) s) as [|x l] eqn:Hf; [simpl in Hpos; lia|].
    assert (x ∈ filter (λ x, x = v) s) as Hx by (rewrite Hf; left).
    by apply list_elem_of_filter in Hx as [-> ?].
Qed.

Lemma elem_of_value_counts (s : list string) (v : string) (n : nat) :
  (v, n) ∈ value_counts s ↔ n = occurrences v s ∧ (0 < n)%nat.
Proof.
  unfold value_counts.
  rewrite sort_desc_Permutation, list_elem_of_fmap. split.
  - intros (v' & [= -> ->] & Hin). split; [done|].
    by apply occurrences_pos, elem_of_uniq.
  - intros [-> Hpos]. exists v. split; [done|].
    by apply elem_of_uniq, occurrences_pos.
Qed.

Lemma NoDup_value_counts (s : list string) : NoDup (value_counts s).*1.
Proof.
  unfold value_counts. rewrite sort_desc_Permutation.
  rewrite <-list_fmap_compose, list_fmap_id. apply NoDup_uniq.
Qed.

Lemma length_filter_fmap {A B} (f : A → B) (P : B → Prop)
    `{!∀ y, Decision (P y)} (l : list A) :
  length (filter P (f <$> l)) = length (filter (λ x, P (f x)) l).
Proof.
  induction l as [|x l IH]; [done|]. csimpl. rewrite !filter_cons.
  destruct (decide (P (f x))); simpl; by rewrite IH.
Qed.

Lemma occurrences_lsc_series (df : DataFrame) (v : string) :
  occurrences v (lsc_series df) = distance_count df v.
Proof.
  unfold occurrences, lsc_series, distance_count, column, select_rows. simpl.
  rewrite length_filter_fmap.
  rewrite list_filter_filter, length_filter_fmap, list_filter_filter.
  f_equal. apply list_filter_iff. intros r.
  rewrite bool_decide_eq_true. tauto.
Qed.

Lemma lstrip_spec (s : string) :
  ∃ pre, s = pre +:+ Text.lstrip s ∧ Text.blank pre.
Proof.
  induction s as [|a s (pre & Hs & Hpre)]; simpl.
  - by exists "".
  - destruct (Text.isspace a) eqn:Ha.
    + exists (String a pre). split; [|done].
      change (String a s = String a (pre +:+ Text.lstrip s)). by rewrite <-Hs.
    + by exists "".
Qed.

Lemma rstrip_spec (s : string) :
  ∃ post, s = Text.rstrip s +:+ post ∧ Text.blank post.
Proof.
  induction s as [|a s (post & Hs & Hpost)]; simpl.
  - by exists "".
  - destruct (Text.rstrip s) as [|b r] eqn:Hr.
    + change ("" +:+ post) with post in Hs. subst post.
      destruct (Text.isspace a) eqn:Ha.
      * by exists (String a s).
      * by exists s.
    + exists post. split; [|done].
      change (String a s = String a (String b r +:+ post)). by rewrite <-Hs.
Qed.

Lemma strip_spec (s : string) :
  ∃ pre post, s = pre +:+ Text.strip s +:+ post ∧
    Text.blank pre ∧ Text.blank post.
Proof.
  destruct (lstrip_spec s) as (pre & Hs & Hpre).
  destruct (rstrip_spec (Text.lstrip s)) as (post & Hl & Hpost).
  exists pre, post. unfold Text.strip. by rewrite <-Hl.
Qed.

(** C6. When the filtered table has the learner-support-centre column, the
    tab counts, for each text, the rows whose mode is "Distance" and whose
    value in that column is not missing and, stripped of the white space
    around it, is that text.  A text is listed exactly when its count is
    positive, once, and the rows come by descending count (a warning is
    given instead when no row counts).  Stripping removes white space at
    both ends only and leaves the case of the letters: " x " counts with
    "x", and "X" apart. *)
Theorem value_frequency_counts (df : DataFrame) :
  "learner support centre" ∈ columns df →
  (((∀ v, distance_count df v = 0%nat) ∧
    lsc_tab df =
      StWarning "Learner Support Centre values exist but are empty after filters.")
   ∨
   (∃ result,
      lsc_tab df = Shown result ∧
      (∀ v n, (v, n) ∈ result ↔ n = distance_count df v ∧ (0 < n)%nat) ∧
      NoDup result.*1 ∧
      StronglySorted (λ a b, (b.2 ≤ a.2)%nat) result)) ∧
  (∀ s, ∃ pre post, s = pre +:+ Text.strip s +:+ post ∧
          Text.blank pre ∧ Text.blank post) ∧
  Text.strip " x " = "x" ∧
  value_counts (Text.strip <$> ["X"; " x "; "Y"; "x"])
    = [("x", 2%nat); ("X", 1%nat); ("Y", 1%nat)].
Proof.
  intros Hcol. split_and!; [|apply strip_spec|done..].
  unfold lsc_tab. rewrite decide_True by done.
  destruct (lsc_series df) as [|x lsc] eqn:Hlsc.
  - left. split; [|done]. intros v.
    by rewrite <-occurrences_lsc_series, Hlsc.
  - right. exists (value_counts (x :: lsc)). split_and!; [done|..].
    + intros v n. by rewrite elem_of_value_counts, <-Hlsc, occurrences_lsc_series.
    + apply NoDup_value_counts.
    + apply (Sorted_StronglySorted count_ge), sort_desc_Sorted.
Qed.

(** ** Loading *)

Lemma elem_of_concat {A} (x : A) (ls : list (list A)) :
  x ∈ concat ls ↔ ∃ l, l ∈ ls ∧ x ∈ l.
Proof.
  induction ls as [|l ls IH]; simpl.
  - split; [by intros ?%elem_of_nil | by intros (? & ?%elem_of_nil & _)].
  - rewrite elem_of_app, IH. split.
    + intros [Hx | (l' & Hl' & Hx)]; [exists l | exists l'];
        split; (done || by constructor).
    + intros (l' & [-> | Hl']%elem_of_cons & Hx); eauto.
Qed.

Lemma length_concat_fmap {A B} (f : A → list B) (l : list A) :
  length (concat (f <$> l)) = sum_list ((λ x, length (f x)) <$> l).
Proof.
  induction l as [|x l IH]; [done|]. csimpl. by rewrite length_app, IH.
Qed.

(** The [k]-th element of the [i]-th list is at its offset in the
    concatenation. *)
Lemma lookup_concat_fmap {A B}
    (f : A → list B) (l : list A) (i k : nat) (x : A) (y : B) :
  l !! i = Some x → f x !! k = Some y →
  concat (f <$> l) !! (sum_list ((λ x, length (f x)) <$> take i l) + k)%nat
    = Some y.
Proof.
  revert i. induction l as [|z l IH]; intros i Hi Hk; [done|].
  destruct i as [|i]; csimpl.
  - injection Hi as ->. rewrite lookup_app_l; [done|].
    by eapply lookup_lt_Some.
  - rewrite lookup_app_r by lia.
    replace (length (f z) + sum_list ((λ x, length (f x)) <$> take i l) + k
               - length (f z))%nat
      with (sum_list ((λ x, length (f x)) <$> take i l) + k)%nat by lia.
    by apply IH.
Qed.

Lemma elem_of_columns_load_file (f : RawFile) (c : string) :
  c ∈ columns (load_file f) ↔
  c = "source_file" ∨ c ∈ normalize_label <$> header f.
Proof.
  unfold load_file, assign_column. simpl. case_decide as Hsf.
  - split; [by right | by intros [-> | ?]].
  - rewrite elem_of_app, list_elem_of_singleton. tauto.
Qed.

Lemma rows_load_file (f : RawFile) :
  rows (load_file f) =
  (λ cells, <["source_file" := CText (name f)]>
              (labelled (normalize_label <$> header f) cells)) <$> body f.
Proof. unfold load_file, assign_column. simpl. by rewrite <-list_fmap_compose. Qed.

Lemma NoDup_zip_fst {A B} (l : list A) (k : list B) :
  NoDup l → NoDup (zip l k).*1.
Proof.
  intros Hnd. apply (sublist_NoDup _ l); [done|]. clear Hnd.
  revert k. induction l as [|x l IH]; intros [|y k]; simpl;
    try apply sublist_nil_l.
  apply sublist_skip, IH.
Qed.

Lemma labelled_lookup
    (labels : list string) (cells : list cell) (j : nat) (c : string) (x : cell) :
  NoDup labels → labels !! j = Some c → cells !! j = Some x →
  labelled labels cells !! c = Some x.
Proof.
  intros Hnd Hc Hx. unfold labelled.
  apply elem_of_list_to_map; [by apply NoDup_zip_fst|].
  apply list_elem_of_lookup. exists j. by apply lookup_zip_Some.
Qed.

Lemma labelled_lookup_None
    (labels : list string) (cells : list cell) (c : string) :
  c ∉ labels → labelled labels cells !! c = None.
Proof.
  intros Hc. unfold labelled. apply not_elem_of_list_to_map.
  intros Hin. apply Hc. apply list_elem_of_fmap in Hin as ([c' x] & -> & Hin).
  by apply elem_of_zip_l in Hin.
Qed.

(** C8. For files whose normalised labels are distinct within each file:
    the columns of the unified table are the labels of the files, each
    converted to text, stripped and lower-cased, together with
    [source_file]; they are distinct.  The unified table has the rows of
    the files, file after file in the order given and row after row in the
    order of each file, none dropped or merged: row [k] of file [i] is at
    the position that counts all rows of the earlier files and then [k];
    its [source_file] is the name of its file, and under each normalised
    label (other than [source_file]) it has the cell the file has there,
    and the missing value under the labels its file does not have. *)
Theorem normalization_and_concatenation (files : list RawFile) :
  (∀ f, f ∈ files → NoDup (normalize_label <$> header f)) →
  let data := load_data files in
  (∀ c, c ∈ columns data ↔
     ∃ f, f ∈ files ∧
       (c = "source_file" ∨
        ∃ h, h ∈ header f ∧ c = Text.lower (Text.strip (astype_str h)))) ∧
  NoDup (columns data) ∧
  length (rows data) = sum_list ((λ f, length (body f)) <$> files) ∧
  (∀ i f k cells,
     files !! i = Some f → body f !! k = Some cells →
     ∃ r,
       rows data !! (sum_list ((λ f, length (body f)) <$> take i files) + k)%nat
         = Some r ∧
       r !! "source_file" = Some (CText (name f)) ∧
       origin r = name f ∧
       (∀ j h x,
          header f !! j = Some h → cells !! j = Some x →
          normalize_label h ≠ "source_file" →
          cell_at r (normalize_label h) = x) ∧
       (∀ c, c ≠ "source_file" → c ∉ normalize_label <$> header f →
             cell_at r c = CMissing)).
Proof.
  intros Hnd data. split_and!.
  - intros c. unfold data, load_data, concat_frames. simpl.
    rewrite elem_of_uniq, elem_of_concat. split.
    + intros (l & Hl & Hc).
      apply list_elem_of_fmap in Hl as (df & -> & Hdf).
      apply list_elem_of_fmap in Hdf as (f & -> & Hf).
      exists f. split; [done|].
      apply elem_of_columns_load_file in Hc as [-> | Hc]; [by left | right].
      apply list_elem_of_fmap in Hc as (h & -> & Hh). by exists h.
    + intros (f & Hf & Hc). exists (columns (load_file f)). split.
      * by do 2 apply list_elem_of_fmap_2.
      * apply elem_of_columns_load_file.
        destruct Hc as [-> | (h & Hh & ->)]; [by left | right].
        by apply (list_elem_of_fmap_2 normalize_label).
  - apply NoDup_uniq.
  - unfold data, load_data, concat_frames. simpl.
    rewrite <-list_fmap_compose, length_concat_fmap. f_equal.
    apply list_fmap_ext. intros _ f _. unfold compose.
    by rewrite rows_load_file, length_fmap.
  - intros i f k cells Hf Hcells.
    pose (labels := normalize_label <$> header f).
    exists (<["source_file" := CText (name f)]> (labelled labels cells)).
    assert (f ∈ files) as Hin by by eapply list_elem_of_lookup_2.
    split_and!.
    + unfold data, load_data, concat_frames. simpl.
      rewrite <-list_fmap_compose.
      assert (∀ l : list RawFile,
                (λ f, length (body f)) <$> l =
                (λ f, length ((rows ∘ load_file) f)) <$> l) as ->.
      { intros l. apply list_fmap_ext. intros _ g _. unfold compose.
        by rewrite rows_load_file, length_fmap. }
      apply (lookup_concat_fmap (rows ∘ load_file) files i k f); [done|].
      unfold compose. by rewrite rows_load_file, list_lookup_fmap, Hcells.
    + apply lookup_insert_eq.
    + unfold origin, cell_at. by rewrite lookup_insert_eq.
    + intros j h x Hh Hx Hne. unfold cell_at.
      rewrite lookup_insert_ne by done.
      rewrite (labelled_lookup labels cells j _ x); [done|by apply Hnd| |done].
      unfold labels. by rewrite list_lookup_fmap, Hh.
    + intros c Hne Hc. unfold cell_at.
      rewrite lookup_insert_ne by done.
      by rewrite labelled_lookup_None.
Qed.

(** ** The filtered table of a run *)

Lemma NoDup_assign_column (c : string) (v : row → cell) (df : DataFrame) :
  NoDup (columns df) → NoDup (columns (assign_column c v df)).
Proof.
  intros Hnd. unfold assign_column. simpl. case_decide as Hc; [done|].
  apply NoDup_app. split_and!; [done| |apply NoDup_singleton].
  intros x Hx ->%list_elem_of_singleton. done.
Qed.

(** The labels of the filtered table of a run are distinct, whatever the
    files and the selections. *)
Lemma filtered_of_NoDup (files : list RawFile) (modes files_sel : list string) :
  NoDup (columns (filtered_of files modes files_sel)).
Proof.
  change (columns (filtered_of files modes files_sel))
    with (columns (add_mode (load_data files))).
  apply NoDup_assign_column, NoDup_uniq.
Qed.

(** Every row of the filtered table carries the mode [detect_mode] gives
    its file, a selected mode and a selected file. *)
Lemma filtered_of_rows
    (files : list RawFile) (modes files_sel : list string) (r : row) :
  r ∈ rows (filtered_of files modes files_sel) →
  cell_at r "mode" = CText (mode_label (detect_mode (origin r))) ∧
  mode_label (detect_mode (origin r)) ∈ modes ∧
  (∃ f, f ∈ files ∧ origin r = name f ∧ name f ∈ files_sel).
Proof.
  unfold filtered_of, apply_filters, select_rows. simpl.
  intros [Hsel [Hmode Hr]%list_elem_of_filter]%list_elem_of_filter.
  apply list_elem_of_fmap in Hr as (r0 & -> & Hr0).
  assert (origin (<["mode" := CText (mode_label (detect_mode (origin r0)))]> r0)
          = origin r0) as Horigin.
  { unfold origin, cell_at. by rewrite lookup_insert_ne. }
  assert (cell_at (<["mode" := CText (mode_label (detect_mode (origin r0)))]> r0)
            "mode" = CText (mode_label (detect_mode (origin r0)))) as Hcell.
  { unfold cell_at. by rewrite lookup_insert_eq. }
  rewrite Hcell in Hmode. rewrite Horigin, Hcell.
  apply bool_decide_eq_true in Hmode. split_and!; [done..|].
  apply elem_of_concat in Hr0 as (l & Hl & Hr0).
  apply list_elem_of_fmap in Hl as (df & -> & Hdf).
  apply list_elem_of_fmap in Hdf as (f & -> & Hf).
  rewrite rows_load_file in Hr0.
  apply list_elem_of_fmap in Hr0 as (cells & -> & _).
  assert (∀ m : row, origin (<["source_file" := CText (name f)]> m) = name f)
    as Hname.
  { intros m. unfold origin, cell_at. by rewrite lookup_insert_eq. }
  exists f. split_and!; [done|apply Hname|].
  unfold cell_at in Hsel. rewrite lookup_insert_ne in Hsel by done.
  rewrite lookup_insert_eq in Hsel. by apply bool_decide_eq_true in Hsel.
Qed.

End Properties.

(** ** The properties at the example frames *)





Lemma value_frequency_counts_witness :
  (((∀ v, distance_count feedback v = 0%nat) ∧
    lsc_tab feedback =
      StWarning "Learner Support Centre values exist but are empty after filters.")
   ∨
   (∃ result,
      lsc_tab feedback = Shown result ∧
      (∀ v n, (v, n) ∈ result ↔ n = distance_count feedback v ∧ (0 < n)%nat) ∧
      NoDup result.*1 ∧
      StronglySorted (λ a b, (b.2 ≤ a.2)%nat) result)) ∧
  (∀ s, ∃ pre post, s = pre +:+ Text.strip s +:+ post ∧
          Text.blank pre ∧ Text.blank post) ∧
  Text.strip " x " = "x" ∧
  value_counts (Text.strip <$> ["X"; " x "; "Y"; "x"])
    = [("x", 2%nat); ("X", 1%nat); ("Y", 1%nat)].
Proof.
  apply (value_frequency_counts feedback).
  apply (bool_decide_unpack _). vm_compute. exact I.
Defined.

Lemma normalization_and_concatenation_witness :
  let data := load_data feedback_files in
  (∀ c, c ∈ columns data ↔
     ∃ f, f ∈ feedback_files ∧
       (c = "source_file" ∨
        ∃ h, h ∈ header f ∧ c = Text.lower (Text.strip (astype_str h)))) ∧
  NoDup (columns data) ∧
  length (rows data) = sum_list ((λ f, length (body f)) <$> feedback_files) ∧
  (∀ i f k cells,
     feedback_files !! i = Some f → body f !! k = Some cells →
     ∃ r,
       rows data
         !! (sum_list ((λ f, length (body f)) <$> take i feedback_files) + k)%nat
         = Some r ∧
       r !! "source_file" = Some (CText (name f)) ∧
       origin r = name f ∧
       (∀ j h x,
          header f !! j = Some h → cells !! j = Some x →
          normalize_label h ≠ "source_file" →
          cell_at r (normalize_label h) = x) ∧
       (∀ c, c ≠ "source_file" → c ∉ normalize_label <$> header f →
             cell_at r c = CMissing)).
Proof.
  apply (normalization_and_concatenation feedback_files).
  apply Forall_forall. apply (bool_decide_unpack _). vm_compute. exact I.
Defined.

(** ** The tabs at the example files *)

(** Two files with the values 3, 4, 5 and 1, 2 (and cells that do not
    coerce): the averages are 4 and 3/2, the files in sorted order. *)
Example feedback_per_file :
  ∃ m1 m2,
    delivery_tab feedback =
      Shown [("BBA_Online.xlsx", Some m1); ("MBA_Distance.csv", Some m2)] ∧
    m1 = Qc_of_Z 4 ∧ m2 = (Qc_of_Z 3 / Qc_of_Z 2)%Qc.
Proof.
  do 2 eexists. split; [vm_compute; reflexivity|].
  split; by apply Qc_is_canon.
Qed.

(** Seven responses, five values in the pool of the one rating column. *)
Example feedback_overview :
  total_responses feedback = 7%nat ∧
  rating_cols feedback = ["rate the faculty"] ∧
  length (present (stack_numeric (rating_cols feedback) feedback)) = 5%nat ∧
  ∃ m, overall_avg feedback = Some m ∧ m = (Qc_of_Z 18 / Qc_of_Z 5)%Qc.
Proof.
  split_and!; [by vm_compute..|].
  eexists. split; [vm_compute; reflexivity | by apply Qc_is_canon].
Qed.

(** "admission support" matches a keyword and has no value that coerces:
    only "quality of syllabus" is reported. *)
Example feedback_master :
  (params feedback).*1 = ["quality of syllabus"] ∧
  is_param_label "admission support" = true ∧
  notna_sum (safe_num (column feedback "admission support")) = 0%nat.
Proof. by vm_compute. Qed.

(** The centres of the Distance rows: " Pune " counts with "Pune", "pune"
    apart, and the missing cell is not counted. *)
Example feedback_centres :
  lsc_tab feedback = Shown [("Pune", 2%nat); ("pune", 1%nat)].
Proof. by vm_compute. Qed.

(** The subject block of the survey file is B and C; E, behind the
    non-numeric D, is not reached. *)
Example survey_subject_block :
  subject_cols survey = Some ["b"; "c"] ∧
  has_number survey "e" ∧ ¬ has_number survey "d".
Proof.
  split; [by vm_compute|]. rewrite <-!(has_number_test survey).
  split; by vm_compute.
Qed.

(** The subject-wise rows of the two files: the rating and the quality
    column, each with a number as its average. *)
Example feedback_subjects :
  ∃ a1 a2,
    subject_tab feedback = Shown [("4/1", Some a1); ("5", Some a2)] ∧
    a1 = (Qc_of_Z 18 / Qc_of_Z 5)%Qc ∧ a2 = (Qc_of_Z 7 / Qc_of_Z 2)%Qc.
Proof.
  do 2 eexists. split; [vm_compute; reflexivity|].
  split; by apply Qc_is_canon.
Qed.

(** ** Columns with a dtype *)

Lemma wide_sum_finite (a : Qc) (vs : list Qc) :
  foldl Wide.add (Some (Wide.Fin a)) (Some <$> (Wide.Fin <$> vs))
  = Some (Wide.Fin (a + Qc_sum vs)%Qc).
Proof.
  revert a. induction vs as [|v vs IH]; intros a; simpl.
  - by rewrite Qcplus_0_r.
  - by rewrite IH, Qcplus_assoc.
Qed.

(** On finite values the mean of a float64 column is the arithmetic mean
    of the frames above. *)
Lemma wide_mean_finite (vs : list Qc) :
  Wide.mean (Some <$> (Wide.Fin <$> vs)) = Wide.Fin <$> arithmetic_mean vs.
Proof.
  unfold Wide.mean.
  assert (∀ l : list Wide.float64, omap id (Some <$> l) = l) as ->.
  { induction l as [|x l IH]; [done|]. csimpl. by f_equal. }
  destruct vs as [|v vs]; [done|].
  change (Wide.Fin <$> v :: vs) with (Wide.Fin v :: (Wide.Fin <$> vs)).
  cbv beta iota. rewrite length_cons, length_fmap.
  change (Some <$> Wide.Fin v :: (Wide.Fin <$> vs))
    with (Some <$> (Wide.Fin <$> v :: vs)).
  rewrite wide_sum_finite, Qcplus_0_l. done.
Qed.

Section WideProperties.
Context `{Wide.Library}.

Lemma wide_subject_tab_rows
    (df : Wide.Frame) (section : string) (i : nat)
    (c : string) (cols : list string) :
  Wide.find_anchor df = Some section →
  get_loc section (Wide.columns df) = Some i →
  Wide.scan_subjects df (drop (S i) (Wide.columns df)) = c :: cols →
  Wide.subject_tab df
  = match mapM (Wide.subject_row df) (c :: cols) with
    | Some rows => Shown rows
    | None => Raised "IndexError"
    end.
Proof. unfold Wide.subject_tab. by intros -> -> ->. Qed.

Lemma wide_first_row_fails (df : Wide.Frame) (c : string) (cols : list string) :
  Wide.display_name df c = None →
  mapM (Wide.subject_row df) (c :: cols) = None.
Proof.
  intros Hname. apply mapM_None_2, Exists_cons_hd.
  unfold Wide.subject_row. by rewrite Hname.
Qed.

(** C9. In the filtered table [Wide.sittings] the column of dates that
    follows the anchor holds NaT only.  Its coercion is the int64 view, so
    one value counts as a number and the column enters the subject block;
    dropping what is missing leaves the column empty, so the display name
    does not exist and the subject-wise tab ends in the [IndexError] of
    [iloc[0]]. *)
Theorem name_extraction_hits_empty_series :
  Wide.notna_sum (Wide.safe_num (Wide.column Wide.sittings "exam date")) = 1%nat ∧
  (∃ rest, Wide.subject_cols Wide.sittings = Some ("exam date" :: rest)) ∧
  Wide.dropna_astype_str (Wide.column Wide.sittings "exam date") = [] ∧
  Wide.display_name Wide.sittings "exam date" = None ∧
  Wide.subject_tab Wide.sittings = Raised "IndexError".
Proof.
  split_and!; [done|by eexists|done|done|].
  rewrite (wide_subject_tab_rows Wide.sittings "delivery of lecture" 0
             "exam date"
             (Wide.scan_subjects Wide.sittings ["source_file"; "mode"]));
    [|done..].
  by rewrite wide_first_row_fails.
Qed.

(** C10. In the filtered table [Wide.ratings] the column Quality holds the
    two infinities.  Both count as numbers, so the column gets a row in the
    master dashboard and, following the anchor, in the subject-wise
    comparison; their mean is NaN, and the row carries it as its average in
    both tables. *)
Theorem undefined_average_is_emitted :
  Wide.notna_sum (Wide.safe_num (Wide.column Wide.ratings "quality")) = 2%nat ∧
  Wide.mean (Wide.safe_num (Wide.column Wide.ratings "quality")) = None ∧
  Wide.params Wide.ratings = [("quality", None)] ∧
  ∃ more, Wide.subject_tab Wide.ratings
          = Shown ((Wide.float_repr Wide.PInf, None) :: more).
Proof.
  split_and!; [done..|].
  rewrite (wide_subject_tab_rows Wide.ratings "delivery of lecture" 0
             "quality"
             (Wide.scan_subjects Wide.ratings ["source_file"; "mode"]));
    [|done..].
  cbn [Wide.scan_subjects].
  change (Wide.safe_num (Wide.column Wide.ratings "source_file"))
    with [Wide.to_float "x_distance.csv"; Wide.to_float "x_distance.csv"].
  change (Wide.safe_num (Wide.column Wide.ratings "mode"))
    with [Wide.to_float "Distance"; Wide.to_float "Distance"].
  destruct (Wide.to_float "x_distance.csv") as [x|];
    [destruct (Wide.to_float "Distance") as [y|]|]; by eexists.
Qed.

End WideProperties.

(** * Further properties of the pipeline *)

(** ** Text *)

Lemma lower_ascii_idem (a : ascii) :
  Text.lower_ascii (Text.lower_ascii a) = Text.lower_ascii a.
Proof. by destruct a as [[] [] [] [] [] [] [] []]. Qed.

Lemma isspace_lower_ascii (a : ascii) :
  Text.isspace (Text.lower_ascii a) = Text.isspace a.
Proof. by destruct a as [[] [] [] [] [] [] [] []]. Qed.

Lemma lower_idem (s : string) : Text.lower (Text.lower s) = Text.lower s.
Proof.
  induction s as [|a s IH]; [done|]. simpl. by rewrite lower_ascii_idem, IH.
Qed.

Lemma lower_app (s t : string) :
  Text.lower (s +:+ t) = Text.lower s +:+ Text.lower t.
Proof.
  induction s as [|a s IH]; [done|].
  change (Text.lower (String a (s +:+ t)) =
          String (Text.lower_ascii a) (Text.lower s +:+ Text.lower t)).
  simpl. by rewrite IH.
Qed.

Lemma string_app_assoc (s t u : string) : (s +:+ t) +:+ u = s +:+ t +:+ u.
Proof.
  induction s as [|a s IH]; [done|].
  change (String a ((s +:+ t) +:+ u) = String a (s +:+ t +:+ u)).
  by rewrite IH.
Qed.

Lemma occurs_in_extend (k x pre post : string) :
  Text.occurs_in k x → Text.occurs_in k (pre +:+ x +:+ post).
Proof.
  intros (p & q & ->). exists (pre +:+ p), (q +:+ post).
  by rewrite !string_app_assoc.
Qed.

Lemma lstrip_starts_clean (s : string) : starts_clean (Text.lstrip s).
Proof.
  induction s as [|a s IH]; [done|]. simpl.
  by destruct (Text.isspace a) eqn:Ha.
Qed.

Lemma rstrip_starts_clean (s : string) :
  starts_clean s → starts_clean (Text.rstrip s).
Proof.
  destruct s as [|a s]; [done|]. simpl. intros Ha.
  destruct (Text.rstrip s); [by rewrite Ha | done].
Qed.

Lemma rstrip_ends_clean (s : string) : ends_clean (Text.rstrip s).
Proof.
  induction s as [|a s IH]; [done|]. simpl.
  destruct (Text.rstrip s) as [|b r] eqn:Hr.
  - by destruct (Text.isspace a) eqn:Ha.
  - done.
Qed.

Lemma lower_starts_clean (s : string) :
  starts_clean s → starts_clean (Text.lower s).
Proof. destruct s as [|a s]; [done|]. simpl. by rewrite isspace_lower_ascii. Qed.

Lemma lower_ends_clean (s : string) :
  ends_clean s → ends_clean (Text.lower s).
Proof.
  induction s as [|a s IH]; [done|]. simpl.
  destruct s as [|b s]; [by rewrite isspace_lower_ascii | apply IH].
Qed.

Lemma lower_ascii_no_capital (a : ascii) : ¬ is_capital (Text.lower_ascii a).
Proof.
  unfold is_capital.
  destruct a as [[] [] [] [] [] [] [] []]; vm_compute; lia.
Qed.

Lemma lower_no_capital (s : string) : no_capital (Text.lower s).
Proof.
  induction s as [|a s IH]; [done|]. simpl.
  split; [apply lower_ascii_no_capital | done].
Qed.

Lemma lstrip_blank (s : string) : Text.blank s → Text.lstrip s = "".
Proof.
  induction s as [|a s IH]; [done|]. simpl. intros [-> Hs]. by apply IH.
Qed.

Lemma strip_blank (s : string) : Text.blank s → Text.strip s = "".
Proof. intros Hs. unfold Text.strip. by rewrite lstrip_blank. Qed.

Section Coverage.
Context `{Pandas}.

Lemma elem_of_columns_add_mode (data : DataFrame) (c : string) :
  c ∈ columns (add_mode data) ↔ c = "mode" ∨ c ∈ columns data.
Proof.
  unfold add_mode, assign_column. simpl. case_decide as Hm.
  - split; [by right | by intros [-> | ?]].
  - rewrite elem_of_app, list_elem_of_singleton. tauto.
Qed.

Lemma elem_of_columns_load_data (files : list RawFile) (c : string) :
  c ∈ columns (load_data files) ↔
  ∃ f, f ∈ files ∧ (c = "source_file" ∨ c ∈ normalize_label <$> header f).
Proof.
  unfold load_data, concat_frames. simpl.
  rewrite elem_of_uniq, elem_of_concat. split.
  - intros (l & Hl & Hc).
    apply list_elem_of_fmap in Hl as (df & -> & Hdf).
    apply list_elem_of_fmap in Hdf as (f & -> & Hf).
    exists f. split; [done|]. by apply elem_of_columns_load_file.
  - intros (f & Hf & Hc). exists (columns (load_file f)). split.
    + by do 2 apply list_elem_of_fmap_2.
    + by apply elem_of_columns_load_file.
Qed.

Lemma columns_filtered_of (files : list RawFile) (modes files_sel : list string) :
  columns (filtered_of files modes files_sel)
  = columns (add_mode (load_data files)).
Proof. done. Qed.

Lemma normalize_label_clean (h : cell) :
  no_capital (normalize_label h) ∧
  starts_clean (normalize_label h) ∧
  ends_clean (normalize_label h).
Proof.
  unfold normalize_label, Text.strip. split_and!.
  - apply lower_no_capital.
  - apply lower_starts_clean, rstrip_starts_clean, lstrip_starts_clean.
  - apply lower_ends_clean, rstrip_ends_clean.
Qed.

(** X1. No label the loader produces holds a capital letter A to Z, and
    none begins or ends with a white space character of the ASCII range
    (tab, line feed, vertical tab, form feed, carriage return, the
    separators 28 to 31, space); the same holds of every column label of
    the filtered table of a run, the two added columns included. *)
Theorem labels_are_lower_case_and_trimmed
    (files : list RawFile) (modes files_sel : list string) :
  (∀ h, no_capital (normalize_label h) ∧
        starts_clean (normalize_label h) ∧
        ends_clean (normalize_label h)) ∧
  (∀ c, c ∈ columns (filtered_of files modes files_sel) →
        no_capital c ∧ starts_clean c ∧ ends_clean c).
Proof.
  split; [apply normalize_label_clean|].
  intros c. rewrite columns_filtered_of, elem_of_columns_add_mode,
    elem_of_columns_load_data.
  intros [-> | (f & _ & [-> | Hc])].
  - split_and!; [|done..]. unfold is_capital. vm_compute. lia.
  - split_and!; [|done..]. unfold is_capital. vm_compute. lia.
  - apply list_elem_of_fmap in Hc as (h & -> & _).
    apply normalize_label_clean.
Qed.

(** X2. The mode of a file name does not depend on the case of its letters,
    and putting text before or after a name never lowers its mode in the
    order Distance, DTL, Online, Unknown: a Distance name stays Distance, a
    DTL name becomes at most Distance, and a name with a mode never becomes
    Unknown. *)
Theorem detect_mode_extension (x pre post : string) :
  detect_mode (Text.lower x) = detect_mode x ∧
  (detect_mode x = Distance → detect_mode (pre +:+ x +:+ post) = Distance) ∧
  (detect_mode x = DTL →
     detect_mode (pre +:+ x +:+ post) = Distance ∨
     detect_mode (pre +:+ x +:+ post) = DTL) ∧
  (detect_mode x ≠ Unknown → detect_mode (pre +:+ x +:+ post) ≠ Unknown).
Proof.
  split; [unfold detect_mode; by rewrite lower_idem|].
  assert (∀ k, Text.contains k (Text.lower x) = true →
               Text.contains k (Text.lower (pre +:+ x +:+ post)) = true)
    as Hext.
  { intros k Hk. apply contains_spec. rewrite !lower_app.
    by apply occurs_in_extend, contains_spec. }
  unfold detect_mode.
  pose proof (Hext "distance") as Hd. pose proof (Hext "dtl") as Ht.
  pose proof (Hext "online") as Ho.
  destruct (Text.contains "distance" (Text.lower x)),
    (Text.contains "dtl" (Text.lower x)),
    (Text.contains "online" (Text.lower x));
    rewrite ?Hd, ?Ht, ?Ho by done;
    destruct (Text.contains "distance" (Text.lower (pre +:+ x +:+ post))),
      (Text.contains "dtl" (Text.lower (pre +:+ x +:+ post)));
    split_and!; intros; try done; try congruence; auto.
Qed.

(** ** The side bar filters *)

Lemma isin_spec (x : cell) (values : list string) :
  isin x values = true ↔ ∃ s, x = CText s ∧ s ∈ values.
Proof.
  destruct x as [q|s|]; simpl.
  - split; [done | by intros (? & ? & _)].
  - rewrite bool_decide_eq_true. split; [eauto|]. by intros (? & [= <-] & ?).
  - split; [done | by intros (? & ? & _)].
Qed.

Lemma filter_all {A} (P : A → Prop) `{!∀ x, Decision (P x)} (l : list A) :
  (∀ x, x ∈ l → P x) → filter P l = l.
Proof.
  induction l as [|x l IH]; intros Hall; [done|].
  rewrite filter_cons, decide_True by (apply Hall; left).
  f_equal. apply IH. intros y Hy. apply Hall. by right.
Qed.

Lemma add_mode_row (r0 : row) :
  let r := <["mode" := CText (mode_label (detect_mode (origin r0)))]> r0 in
  cell_at r "mode" = CText (mode_label (detect_mode (origin r0))) ∧
  cell_at r "source_file" = cell_at r0 "source_file" ∧
  origin r = origin r0 ∧
  mode_of r = mode_label (detect_mode (origin r0)).
Proof.
  intros r. unfold r, mode_of, origin, cell_at.
  by rewrite lookup_insert_eq, lookup_insert_ne.
Qed.

Lemma elem_of_rows_add_mode (data : DataFrame) (r : row) :
  r ∈ rows (add_mode data) ↔
  ∃ r0, r0 ∈ rows data ∧
    r = <["mode" := CText (mode_label (detect_mode (origin r0)))]> r0.
Proof.
  unfold add_mode, assign_column. simpl. rewrite list_elem_of_fmap.
  split; intros (r0 & ? & ?); eauto.
Qed.

Lemma elem_of_rows_apply_filters
    (modes files_sel : list string) (df : DataFrame) (r : row) :
  r ∈ rows (apply_filters modes files_sel df) ↔
  r ∈ rows df ∧ isin (cell_at r "mode") modes = true ∧
  isin (cell_at r "source_file") files_sel = true.
Proof.
  unfold apply_filters, select_rows. simpl.
  rewrite !list_elem_of_filter. tauto.
Qed.

Lemma elem_of_rows_load_data (files : list RawFile) (r : row) :
  r ∈ rows (load_data files) ↔
  ∃ f cells, f ∈ files ∧ cells ∈ body f ∧
    r = <["source_file" := CText (name f)]>
          (labelled (normalize_label <$> header f) cells).
Proof.
  unfold load_data, concat_frames. simpl. rewrite elem_of_concat. split.
  - intros (l & Hl & Hr).
    apply list_elem_of_fmap in Hl as (df & -> & Hdf).
    apply list_elem_of_fmap in Hdf as (f & -> & Hf).
    rewrite rows_load_file in Hr.
    apply list_elem_of_fmap in Hr as (cells & -> & Hcells). eauto.
  - intros (f & cells & Hf & Hcells & ->). exists (rows (load_file f)). split.
    + by do 2 apply list_elem_of_fmap_2.
    + rewrite rows_load_file.
      by apply (list_elem_of_fmap_2
        (λ cells, <["source_file" := CText (name f)]>
                    (labelled (normalize_label <$> header f) cells))).
Qed.

Lemma load_data_row_origin (files : list RawFile) (r : row) :
  r ∈ rows (load_data files) →
  ∃ f, f ∈ files ∧ body f ≠ [] ∧
    cell_at r "source_file" = CText (name f) ∧ origin r = name f.
Proof.
  intros (f & cells & Hf & Hcells & ->)%elem_of_rows_load_data.
  exists f. unfold origin, cell_at. rewrite lookup_insert_eq.
  split_and!; [done| |done..]. intros Hnil. rewrite Hnil in Hcells.
  by apply elem_of_nil in Hcells.
Qed.

Lemma run_row_cells (files : list RawFile) (r : row) :
  r ∈ rows (add_mode (load_data files)) →
  ∃ f, f ∈ files ∧ body f ≠ [] ∧ origin r = name f ∧
    cell_at r "mode" = CText (mode_label (detect_mode (name f))) ∧
    cell_at r "source_file" = CText (name f).
Proof.
  intros (r0 & Hr0 & ->)%elem_of_rows_add_mode.
  destruct (add_mode_row r0) as (Hmode & Hsf & Ho & _).
  apply load_data_row_origin in Hr0 as (f & Hf & Hbody & Hcell & Hname).
  exists f. by rewrite Hmode, Hsf, Ho, Hname, Hcell.
Qed.

Lemma file_has_row (files : list RawFile) (f : RawFile) :
  f ∈ files → body f ≠ [] →
  ∃ r, r ∈ rows (add_mode (load_data files)) ∧ origin r = name f ∧
    cell_at r "mode" = CText (mode_label (detect_mode (name f))) ∧
    cell_at r "source_file" = CText (name f).
Proof.
  intros Hf Hbody. destruct (body f) as [|cells l] eqn:Hcells; [done|].
  set (r0 := <["source_file" := CText (name f)]>
               (labelled (normalize_label <$> header f) cells)).
  assert (cell_at r0 "source_file" = CText (name f) ∧ origin r0 = name f)
    as [Hsf0 Ho0].
  { unfold r0, origin, cell_at. by rewrite lookup_insert_eq. }
  exists (<["mode" := CText (mode_label (detect_mode (origin r0)))]> r0).
  destruct (add_mode_row r0) as (Hmode & Hsf & Ho & _).
  rewrite Hmode, Hsf, Ho, Ho0, Hsf0. split_and!; [|done..].
  apply elem_of_rows_add_mode. exists r0. rewrite Ho0. split; [|done].
  apply elem_of_rows_load_data. exists f, cells.
  split_and!; [done| |done]. rewrite Hcells. left.
Qed.

(** X3. After the two filters a row of the table is kept exactly when the
    mode derived from its file name is among the selected modes and its
    file name is among the selected files; the rows that are kept keep
    their order, and the columns are those of the unfiltered table. *)
Theorem filters_keep_selected_rows
    (data : DataFrame) (modes files_sel : list string) :
  let filtered := apply_filters modes files_sel (add_mode data) in
  (∀ r, r ∈ rows filtered ↔
     ∃ r0, r0 ∈ rows data ∧
       r = <["mode" := CText (mode_label (detect_mode (origin r0)))]> r0 ∧
       mode_label (detect_mode (origin r0)) ∈ modes ∧
       ∃ s, cell_at r0 "source_file" = CText s ∧ s ∈ files_sel) ∧
  rows filtered `sublist_of` rows (add_mode data) ∧
  columns filtered = columns (add_mode data).
Proof.
  intros filtered. split_and!; [|..|done].
  - intros r. unfold filtered.
    rewrite elem_of_rows_apply_filters, elem_of_rows_add_mode. split.
    + intros ((r0 & Hr0 & ->) & Hm & Hf). exists r0.
      destruct (add_mode_row r0) as (Hmode & Hsf & _).
      rewrite Hmode in Hm. rewrite Hsf in Hf.
      apply isin_spec in Hm as (m & [= <-] & Hm). apply isin_spec in Hf.
      done.
    + intros (r0 & Hr0 & -> & Hm & Hf).
      destruct (add_mode_row r0) as (Hmode & Hsf & _).
      rewrite Hmode, Hsf. split_and!; [eauto| |by apply isin_spec].
      apply isin_spec. eauto.
  - unfold filtered, apply_filters, select_rows. simpl.
    etrans; apply sublist_filter.
Qed.

(** X4. The filters never split a file: of two rows of the unified table
    that come from the same file, either both are kept or both are
    dropped. *)
Theorem filters_never_split_a_file
    (files : list RawFile) (modes files_sel : list string) (r1 r2 : row) :
  r1 ∈ rows (add_mode (load_data files)) →
  r2 ∈ rows (add_mode (load_data files)) →
  origin r1 = origin r2 →
  (r1 ∈ rows (filtered_of files modes files_sel) ↔
   r2 ∈ rows (filtered_of files modes files_sel)).
Proof.
  intros Hr1 Hr2 Horigin. unfold filtered_of.
  rewrite !elem_of_rows_apply_filters.
  assert (∀ r, r ∈ rows (add_mode (load_data files)) →
            cell_at r "mode" = CText (mode_label (detect_mode (origin r))) ∧
            cell_at r "source_file" = CText (origin r)) as Hcells.
  { intros r (r0 & Hr0 & ->)%elem_of_rows_add_mode.
    destruct (add_mode_row r0) as (Hmode & Hsf & Ho & _).
    rewrite Hmode, Hsf, Ho. split; [done|].
    by apply load_data_row_origin in Hr0 as (f & _ & _ & -> & ->). }
  destruct (Hcells r1 Hr1) as [-> ->]. destruct (Hcells r2 Hr2) as [-> ->].
  rewrite Horigin. tauto.
Qed.

(** X5. The options of the mode selector are among the four mode labels,
    sorted and without repetition; a file name is an option of the file
    selector exactly when the file has a data row and the mode of its name
    is selected; with both selectors left at their defaults (every option
    selected) the filtered table has all the rows of the unified table. *)
Theorem default_selection_keeps_all_rows (files : list RawFile) :
  let data := add_mode (load_data files) in
  (∀ m, m ∈ mode_options data →
        m ∈ ["DTL"; "Distance"; "Online"; "Unknown"]) ∧
  NoDup (mode_options data) ∧
  Sorted (≤)%string (mode_options data) ∧
  (∀ modes n,
     n ∈ file_options (select_rows (λ r, isin (cell_at r "mode") modes) data)
     ↔ ∃ f, f ∈ files ∧ body f ≠ [] ∧ name f = n ∧
         mode_label (detect_mode n) ∈ modes) ∧
  rows (filtered_default files) = rows data ∧
  columns (filtered_default files) = columns data.
Proof.
  intros data.
  assert (∀ r, r ∈ rows data →
            cell_at r "mode" = CText (mode_of r) ∧
            mode_of r = mode_label (detect_mode (origin r)) ∧
            cell_at r "source_file" = CText (origin r)) as Hcells.
  { intros r (r0 & Hr0 & ->)%elem_of_rows_add_mode.
    destruct (add_mode_row r0) as (Hmode & Hsf & Ho & Hmo).
    rewrite Hmode, Hsf, Ho, Hmo. split_and!; [done..|].
    by apply load_data_row_origin in Hr0 as (f & _ & _ & -> & ->). }
  assert (∀ m, m ∈ mode_options data ↔ ∃ r, r ∈ rows data ∧ mode_of r = m)
    as Hmodes.
  { intros m. unfold mode_options.
    rewrite (merge_sort_Permutation (≤)%string), elem_of_uniq,
      list_elem_of_fmap.
    split; intros (r & ? & ?); eauto. }
  assert (∀ r, r ∈ rows data →
            isin (cell_at r "mode") (mode_options data) = true) as Hfirst.
  { intros r Hr. destruct (Hcells r Hr) as (-> & _ & _).
    apply isin_spec. eexists. split; [done|]. apply Hmodes. eauto. }
  split_and!.
  - intros m (r & Hr & <-)%Hmodes. destruct (Hcells r Hr) as (_ & -> & _).
    destruct (detect_mode (origin r)); simpl; by repeat constructor.
  - unfold mode_options. rewrite (merge_sort_Permutation (≤)%string).
    apply NoDup_uniq.
  - apply (Sorted_merge_sort (≤)%string).
  - intros modes n. unfold file_options, select_rows. cbn [rows].
    rewrite (merge_sort_Permutation (≤)%string), elem_of_uniq,
      list_elem_of_fmap. split.
    + intros (r & -> & [Hm Hr]%list_elem_of_filter).
      apply run_row_cells in Hr as (f & Hf & Hbody & Ho & Hmode & _).
      rewrite Hmode in Hm. apply isin_spec in Hm as (m & [= <-] & Hm).
      exists f. by rewrite Ho.
    + intros (f & Hf & Hbody & <- & Hm).
      destruct (file_has_row files f Hf Hbody) as (r & Hr & Ho & Hmode & _).
      exists r. split; [done|]. apply list_elem_of_filter. split; [|done].
      rewrite Hmode. apply isin_spec. eauto.
  - unfold filtered_default, select_rows, file_options. cbn [rows columns].
    fold data.
    match goal with
    | |- filter _ ?l = _ => assert (l = rows data) as -> by by apply filter_all
    end.
    apply filter_all. intros r Hr.
    destruct (Hcells r Hr) as (_ & _ & ->). apply isin_spec.
    eexists. split; [done|].
    rewrite (merge_sort_Permutation (≤)%string), elem_of_uniq.
    by apply list_elem_of_fmap_2.
  - done.
Qed.

(** ** Missing columns and empty tables *)





Lemma params_of_no_rows (df : DataFrame) (cols : list string) :
  rows df = [] → params_of df cols = [].
Proof.
  intros Hrows. induction cols as [|c cols IH]; [done|]. simpl.
  unfold column. rewrite Hrows. simpl. by destruct (is_param_label c).
Qed.

(** X7. On a table without rows (distinct labels): the number of responses
    is 0 and the overall average is undefined; the master dashboard is
    empty; with the anchor column present the per-file table is empty and
    the subject-wise tab ends with the error that no subject column is
    detected; with the learner support centre column present that tab gives
    its warning.  Selecting no mode, or no file, gives such a table. *)
Theorem zero_rows_behaviour
    (df : DataFrame) (files : list RawFile) (modes files_sel : list string) :
  rows df = [] →
  NoDup (columns df) →
  total_responses df = 0%nat ∧
  overall_avg df = None ∧
  params df = [] ∧
  (is_Some (find_anchor df) →
     delivery_tab df = Shown [] ∧
     subject_tab df = StError "Subject numeric columns not detected.") ∧
  ("learner support centre" ∈ columns df →
     lsc_tab df =
       StWarning "Learner Support Centre values exist but are empty after filters.") ∧
  rows (filtered_of files [] files_sel) = [] ∧
  rows (filtered_of files modes []) = [].
Proof.
  intros Hrows Hnd. split_and!.
  - unfold total_responses. by rewrite Hrows.
  - unfold overall_avg, stack_numeric. by rewrite Hrows.
  - by apply params_of_no_rows.
  - intros [anchor Hanchor]. split.
    + unfold delivery_tab, groupby_mean, group_keys.
      by rewrite Hanchor, Hrows.
    + destruct (proj1 (find_anchor_Some df anchor) Hanchor)
        as (pre & post & Hcols & _).
      destruct (subject_block_core df pre post anchor Hnd Hcols Hanchor)
        as (Hloc & Hdrop & _).
      unfold subject_tab. rewrite Hanchor, Hloc, Hdrop.
      destruct post as [|c post]; [done|]. simpl.
      unfold column. by rewrite Hrows.
  - intros Hcol. unfold lsc_tab, lsc_series, column, select_rows.
    rewrite decide_True by done. simpl. by rewrite Hrows.
  - unfold filtered_of, apply_filters, select_rows. simpl.
    assert (∀ l : list row,
              filter (λ r, isin (cell_at r "mode") [] = true) l = []) as ->;
      [|done].
    intros l. induction l as [|r l IH]; [done|].
    rewrite filter_cons, decide_False; [done|].
    rewrite isin_spec. intros (s & _ & Hs). by apply elem_of_nil in Hs.
  - unfold filtered_of, apply_filters, select_rows. simpl.
    match goal with |- filter _ ?l = [] => generalize l end.
    intros l. induction l as [|r l IH]; [done|].
    rewrite filter_cons, decide_False; [done|].
    rewrite isin_spec. intros (s & _ & Hs). by apply elem_of_nil in Hs.
Qed.

(** X8. The per-file table of a run has a row for a file exactly when the
    file is uploaded with at least one data row, its name is selected and
    the mode of its name is selected: a file without data rows is not
    listed. *)
Theorem per_file_table_lists_selected_files
    (files : list RawFile) (modes files_sel : list string)
    (result : list (string * option Qc)) :
  delivery_tab (filtered_of files modes files_sel) = Shown result →
  ∀ n, n ∈ result.*1 ↔
    ∃ f, f ∈ files ∧ name f = n ∧ body f ≠ [] ∧
      n ∈ files_sel ∧ mode_label (detect_mode n) ∈ modes.
Proof.
  intros Htab n. unfold delivery_tab in Htab.
  destruct (find_anchor (filtered_of files modes files_sel)) as [col|];
    [|done].
  injection Htab as <-.
  assert ((groupby_mean col (filtered_of files modes files_sel)).*1
          = group_keys (filtered_of files modes files_sel)) as ->.
  { unfold groupby_mean. rewrite <-list_fmap_compose. apply list_fmap_id. }
  rewrite elem_of_group_keys. unfold filtered_of. split.
  - intros (r & (Hr & Hm & Hs)%elem_of_rows_apply_filters & Ho).
    apply run_row_cells in Hr as (f & Hf & Hbody & Horigin & Hmode & Hsf).
    rewrite Hmode in Hm. rewrite Hsf in Hs.
    apply isin_spec in Hm as (m & [= <-] & Hm).
    apply isin_spec in Hs as (s & [= <-] & Hs).
    exists f. rewrite <-Ho, Horigin. done.
  - intros (f & Hf & <- & Hbody & Hs & Hm).
    destruct (file_has_row files f Hf Hbody) as (r & Hr & Ho & Hmode & Hsf).
    exists r. split; [|done]. apply elem_of_rows_apply_filters.
    rewrite Hmode, Hsf. split_and!; [done|..]; apply isin_spec; eauto.
Qed.

(** ** Groups and counts add up *)

Lemma filter_none {A} (P : A → Prop) `{!∀ x, Decision (P x)} (l : list A) :
  (∀ x, x ∈ l → ¬ P x) → filter P l = [].
Proof.
  induction l as [|x l IH]; intros Hall; [done|].
  rewrite filter_cons, decide_False by (apply Hall; left).
  apply IH. intros y Hy. apply Hall. by right.
Qed.

Lemma filter_disjoint_union {A} (P Q : A → Prop)
    `{!∀ x, Decision (P x), !∀ x, Decision (Q x)} (l : list A) :
  (∀ x, P x → Q x → False) →
  filter P l ++ filter Q l ≡ₚ filter (λ x, P x ∨ Q x) l.
Proof.
  intros Hdisj. induction l as [|x l IH]; [done|].
  rewrite !filter_cons.
  destruct (decide (P x)) as [HP|HP], (decide (Q x)) as [HQ|HQ].
  - by destruct (Hdisj x).
  - rewrite decide_True by tauto. simpl. by rewrite IH.
  - rewrite decide_True by tauto. rewrite <-Permutation_middle. by rewrite IH.
  - rewrite decide_False by tauto. done.
Qed.

(** Splitting a list by the distinct keys of its elements loses and
    repeats nothing. *)
Lemma partition_by_key {A} (key : A → string) (ks : list string) (l : list A) :
  NoDup ks →
  concat ((λ k, filter (λ x, key x = k) l) <$> ks)
    ≡ₚ filter (λ x, key x ∈ ks) l.
Proof.
  induction 1 as [|k ks Hk _ IH]; csimpl.
  - symmetry. rewrite filter_none; [done|]. intros x _ Hx.
    by apply elem_of_nil in Hx.
  - rewrite IH, filter_disjoint_union.
    + erewrite list_filter_iff; [done|]. intros x. simpl.
      rewrite elem_of_cons. tauto.
    + intros x <- Hx. done.
Qed.

Lemma concat_omap {A B} (g : A → option B) (ls : list (list A)) :
  concat ((λ l : list A, omap g l) <$> ls) = omap g (concat ls).
Proof.
  induction ls as [|l ls IH]; [done|]. csimpl. by rewrite omap_app, IH.
Qed.

Lemma rows_group_rows (df : DataFrame) (f : string) :
  rows (group_rows df f) = filter (λ r, origin r = f) (rows df).
Proof.
  unfold group_rows, select_rows. simpl.
  apply list_filter_iff. intros r. apply bool_decide_eq_true.
Qed.

(** X11. Grouping by file loses and repeats nothing: the groups of the
    per-file table, taken together, hold each row of the filtered table
    once, so the sizes of the groups add up to the number of responses, and
    the values averaged in the groups are, together, the values of the
    column that coerce. *)
Theorem groups_partition_responses (df : DataFrame) (col : string) :
  concat ((λ f, rows (group_rows df f)) <$> group_keys df) ≡ₚ rows df ∧
  sum_list ((λ f, length (rows (group_rows df f))) <$> group_keys df)
    = total_responses df ∧
  concat ((λ f, present (safe_num (column (group_rows df f) col)))
            <$> group_keys df)
    ≡ₚ present (safe_num (column df col)).
Proof.
  assert (concat ((λ f, rows (group_rows df f)) <$> group_keys df)
            ≡ₚ rows df) as Hrows.
  { erewrite list_fmap_ext; [|intros; apply rows_group_rows].
    rewrite (partition_by_key origin) by apply NoDup_group_keys.
    rewrite filter_all; [done|]. intros r Hr.
    apply elem_of_group_keys. eauto. }
  split_and!; [done| |].
  - rewrite <-length_concat_fmap. unfold total_responses. by rewrite Hrows.
  - assert (∀ d, present (safe_num (column d col))
                 = omap (λ r, to_numeric (cell_at r col)) (rows d)) as Hcolumn.
    { intros d. unfold column. by rewrite present_safe_num, omap_fmap_compose. }
    rewrite Hcolumn, <-Hrows, <-concat_omap, <-list_fmap_compose.
    apply reflexive_eq. f_equal. apply list_fmap_ext. intros _ f _.
    apply Hcolumn.
Qed.

Lemma sum_occurrences (s : list string) :
  sum_list ((λ v, occurrences v s) <$> uniq s) = length s.
Proof.
  unfold occurrences. rewrite <-length_concat_fmap.
  rewrite (partition_by_key id) by apply NoDup_uniq.
  rewrite filter_all; [done|]. intros x Hx. by apply elem_of_uniq.
Qed.

Lemma sum_value_counts (s : list string) :
  sum_list (value_counts s).*2 = length s.
Proof.
  unfold value_counts. rewrite sort_desc_Permutation.
  rewrite <-list_fmap_compose. apply sum_occurrences.
Qed.

Lemma length_lsc_series (df : DataFrame) :
  length (lsc_series df) =
  length (filter (λ r, cell_at r "mode" = CText "Distance" ∧
                       cell_at r "learner support centre" ≠ CMissing)
            (rows df)).
Proof.
  unfold lsc_series, column, select_rows. simpl.
  rewrite length_fmap, length_filter_fmap, list_filter_filter.
  f_equal. apply list_filter_iff. intros r.
  rewrite bool_decide_eq_true. tauto.
Qed.

(** X12. The counts of the learner support centre table add up to the
    number of Distance rows that have a value in the column: each such row
    is counted once. *)
Theorem value_counts_add_up
    (df : DataFrame) (result : list (string * nat)) :
  lsc_tab df = Shown result →
  sum_list result.*2 =
    length (filter (λ r, cell_at r "mode" = CText "Distance" ∧
                         cell_at r "learner support centre" ≠ CMissing)
              (rows df)) ∧
  (0 < sum_list result.*2)%nat.
Proof.
  intros Htab. unfold lsc_tab in Htab. case_decide; [|done].
  destruct (lsc_series df) as [|x lsc] eqn:Hlsc; [done|].
  injection Htab as <-. rewrite sum_value_counts.
  split; [|simpl; lia]. by rewrite <-Hlsc, length_lsc_series.
Qed.

(** X13. Missing values are dropped before the texts are stripped, so a
    Distance row whose centre is a text of white space only is not dropped:
    it is counted, under the empty text. *)
Theorem blank_centre_is_counted (df : DataFrame) (r : row) (s : string) :
  "learner support centre" ∈ columns df →
  r ∈ rows df →
  cell_at r "mode" = CText "Distance" →
  cell_at r "learner support centre" = CText s →
  Text.blank s →
  ∃ result n,
    lsc_tab df = Shown result ∧ ("", n) ∈ result ∧ (0 < n)%nat.
Proof.
  intros Hcol Hr Hmode Hcell Hblank.
  assert (0 < distance_count df "")%nat as Hpos.
  { unfold distance_count.
    assert (r ∈ filter
              (λ r, cell_at r "mode" = CText "Distance" ∧
                    cell_at r "learner support centre" ≠ CMissing ∧
                    Text.strip (astype_str (cell_at r "learner support centre"))
                      = "") (rows df)) as Hin.
    { apply list_elem_of_filter. split; [|done]. rewrite Hcell. simpl.
      split_and!; [done..|]. by apply strip_blank. }
    destruct (filter _ (rows df)); [inversion Hin | simpl; lia]. }
  rewrite <-occurrences_lsc_series in Hpos.
  unfold lsc_tab. rewrite decide_True by done.
  destruct (lsc_series df) as [|x lsc] eqn:Hlsc.
  { apply occurrences_pos in Hpos. by apply elem_of_nil in Hpos. }
  exists (value_counts (x :: lsc)), (occurrences "" (x :: lsc)).
  split_and!; [done| |done]. by apply elem_of_value_counts.
Qed.

(** X14. A response with no rating that coerces to a number counts as a
    response and leaves the overall average as it is. *)
Theorem unanswered_row_counts_but_not_averaged (df : DataFrame) (r : row) :
  (∀ c, c ∈ rating_cols df → to_numeric (cell_at r c) = None) →
  let df' := {| columns := columns df; rows := rows df ++ [r] |} in
  total_responses df' = S (total_responses df) ∧
  overall_avg df' = overall_avg df.
Proof.
  intros Hnone df'. split.
  - unfold total_responses, df'. simpl. rewrite length_app. simpl. lia.
  - unfold overall_avg, mean. f_equal.
    change (rating_cols df') with (rating_cols df).
    unfold stack_numeric, present, df'. simpl.
    rewrite fmap_app, concat_app, omap_app. simpl. rewrite app_nil_r.
    assert (omap id ((λ c, to_numeric (cell_at r c)) <$> rating_cols df) = [])
      as ->; [|by rewrite app_nil_r].
    revert Hnone. generalize (rating_cols df). intros cols Hnone.
    induction cols as [|c cols IH]; [done|]. csimpl.
    rewrite (Hnone c) by left. apply IH. intros c' Hc'. apply Hnone. by right.
Qed.

(** ** Column order and the added columns *)

Lemma remove_dups_NoDup {A} `{EqDecision A} (l : list A) :
  NoDup l → remove_dups l = l.
Proof.
  induction 1 as [|x l Hx _ IH]; [done|]. simpl.
  destruct (decide_rel elem_of x l) as [?|_]; [done|]. by rewrite IH.
Qed.

Lemma remove_dups_app_suffix {A} `{EqDecision A} (a b : list A) :
  ∃ pre, remove_dups (a ++ b) = pre ++ remove_dups b ∧
    ∀ x, x ∈ pre → x ∉ b.
Proof.
  induction a as [|x a (pre & Heq & Hpre)]; simpl.
  - exists []. split; [done|]. by intros x ?%elem_of_nil.
  - destruct (decide_rel elem_of x (a ++ b)) as [Hin|Hnot].
    + by exists pre.
    + exists (x :: pre). rewrite Heq. split; [done|].
      intros y [-> | Hy]%elem_of_cons; [|by apply Hpre].
      intros Hb. apply Hnot, elem_of_app. by right.
Qed.

Lemma uniq_app_NoDup {A} `{EqDecision A} (l k : list A) :
  NoDup l →
  ∃ more, uniq (l ++ k) = l ++ more ∧ ∀ x, x ∈ more → x ∉ l.
Proof.
  intros Hnd. unfold uniq. rewrite reverse_app.
  destruct (remove_dups_app_suffix (reverse k) (reverse l))
    as (pre & -> & Hpre).
  assert (NoDup (reverse l)) as Hrev by by rewrite reverse_Permutation.
  rewrite (remove_dups_NoDup _ Hrev).
  exists (reverse pre). rewrite reverse_app, reverse_involutive.
  split; [done|]. intros x Hx Hl.
  apply (proj1 (elem_of_reverse x pre)) in Hx.
  apply (Hpre x Hx). by apply elem_of_reverse.
Qed.

(** X16. The unified table starts with the columns of the first file, in
    the order of the file and followed by [source_file] when the file has
    no column of that name; the columns that only later files have come
    after them. *)
Theorem first_file_columns_lead (f : RawFile) (fs : list RawFile) :
  NoDup (normalize_label <$> header f) →
  ∃ own more,
    columns (load_data (f :: fs))
      = (normalize_label <$> header f) ++ own ++ more ∧
    (own = [] ∧ "source_file" ∈ normalize_label <$> header f ∨
     own = ["source_file"] ∧ "source_file" ∉ normalize_label <$> header f) ∧
    (∀ c, c ∈ more →
          c ≠ "source_file" ∧ c ∉ normalize_label <$> header f).
Proof.
  intros Hnd.
  assert (NoDup (columns (load_file f))) as Hfile
    by by apply NoDup_assign_column.
  unfold load_data, concat_frames. cbn [columns]. rewrite !fmap_cons.
  cbn [concat].
  destruct (uniq_app_NoDup (columns (load_file f))
              (concat (columns <$> (load_file <$> fs))) Hfile)
    as (more & -> & Hmore).
  assert (∀ c, c ∈ more →
            c ≠ "source_file" ∧ c ∉ normalize_label <$> header f) as Hnew.
  { intros c Hc. apply Hmore in Hc.
    rewrite elem_of_columns_load_file in Hc. tauto. }
  unfold load_file, assign_column. cbn [columns]. case_decide as Hsf.
  - exists [], more. split_and!; [done| |done]. by left.
  - exists ["source_file"], more. rewrite <-(assoc (++)).
    split_and!; [done| |done]. by right.
Qed.

(** X17. When no file name and no mode label is a number for
    [pd.to_numeric], the two columns the program adds, [source_file] and
    [mode], are never taken for subject columns. *)
Theorem added_columns_are_no_subjects
    (files : list RawFile) (modes files_sel : list string)
    (block : list string) :
  (∀ f, f ∈ files → parse_number (name f) = None) →
  (∀ m, parse_number (mode_label m) = None) →
  subject_cols (filtered_of files modes files_sel) = Some block →
  ("source_file" ∉ block) ∧ ("mode" ∉ block).
Proof.
  intros Hnames Hmodes Hblock.
  apply subject_cols_numeric in Hblock. rewrite Forall_forall in Hblock.
  assert (∀ c, c = "source_file" ∨ c = "mode" →
            ¬ has_number (filtered_of files modes files_sel) c) as Hno.
  { intros c Hc (x & Hx & Hnum).
    apply list_elem_of_fmap in Hx as (r & -> & Hr).
    apply elem_of_rows_apply_filters in Hr as (Hr & _ & _).
    apply run_row_cells in Hr as (f & Hf & _ & _ & Hmode & Hsf).
    destruct Hc as [-> | ->].
    - rewrite Hsf in Hnum. simpl in Hnum. rewrite Hnames in Hnum by done.
      by destruct Hnum.
    - rewrite Hmode in Hnum. simpl in Hnum. rewrite Hmodes in Hnum.
      by destruct Hnum. }
  split; intros Hin; apply Hblock in Hin.
  - apply (Hno "source_file"); [by left | done].
  - apply (Hno "mode"); [by right | done].
Qed.

End Coverage.


(** ** Export *)










(** ** The further properties at the example frames *)

Lemma lookup_default {A} (l : list A) (i : nat) (d : A) :
  (i < length l)%nat → l !! i = Some (default d (l !! i)).
Proof. intros [x ->]%lookup_lt_is_Some. done. Qed.

Lemma filters_never_split_a_file_witness :
  first_response ∈ rows (filtered_of feedback_files ["Online"] ["MBA_Distance.csv"])
  ↔ second_response
      ∈ rows (filtered_of feedback_files ["Online"] ["MBA_Distance.csv"]).
Proof.
  apply (filters_never_split_a_file feedback_files).
  - apply (list_elem_of_lookup_2 _ 0%nat), lookup_default. vm_compute. lia.
  - apply (list_elem_of_lookup_2 _ 1%nat), lookup_default. vm_compute. lia.
  - vm_compute. reflexivity.
Defined.

Lemma zero_rows_behaviour_witness :
  let df := filtered_of feedback_files [] ["MBA_Distance.csv"] in
  total_responses df = 0%nat ∧
  overall_avg df = None ∧
  params df = [] ∧
  (is_Some (find_anchor df) →
     delivery_tab df = Shown [] ∧
     subject_tab df = StError "Subject numeric columns not detected.") ∧
  ("learner support centre" ∈ columns df →
     lsc_tab df =
       StWarning "Learner Support Centre values exist but are empty after filters.") ∧
  rows (filtered_of feedback_files [] ["MBA_Distance.csv"]) = [] ∧
  rows (filtered_of feedback_files ["Distance"] []) = [].
Proof.
  apply (zero_rows_behaviour
           (filtered_of feedback_files [] ["MBA_Distance.csv"])
           feedback_files ["Distance"] ["MBA_Distance.csv"]).
  - vm_compute. reflexivity.
  - apply (bool_decide_unpack _). vm_compute. exact I.
Defined.

Lemma per_file_table_lists_selected_files_witness :
  "BBA_Online.xlsx"
    ∈ (groupby_mean "delivery of lecture (1-5)" feedback).*1 ↔
  ∃ f, f ∈ feedback_files ∧ name f = "BBA_Online.xlsx" ∧ body f ≠ [] ∧
    "BBA_Online.xlsx" ∈ ["MBA_Distance.csv"; "BBA_Online.xlsx"] ∧
    mode_label (detect_mode "BBA_Online.xlsx") ∈ ["Distance"; "Online"].
Proof.
  apply (per_file_table_lists_selected_files feedback_files
           ["Distance"; "Online"] ["MBA_Distance.csv"; "BBA_Online.xlsx"]).
  vm_compute. reflexivity.
Defined.

Lemma value_counts_add_up_witness :
  sum_list [("Pune", 2%nat); ("pune", 1%nat)].*2 =
    length (filter (λ r, cell_at r "mode" = CText "Distance" ∧
                         cell_at r "learner support centre" ≠ CMissing)
              (rows feedback)) ∧
  (0 < sum_list [("Pune", 2%nat); ("pune", 1%nat)].*2)%nat.
Proof.
  apply (value_counts_add_up feedback). vm_compute. reflexivity.
Defined.

Lemma blank_centre_is_counted_witness :
  ∃ result n,
    lsc_tab centres = Shown result ∧ ("", n) ∈ result ∧ (0 < n)%nat.
Proof.
  apply (blank_centre_is_counted centres blank_centre_row "  ").
  - apply (bool_decide_unpack _). vm_compute. exact I.
  - apply (list_elem_of_lookup_2 _ 1%nat), lookup_default. vm_compute. lia.
  - vm_compute. reflexivity.
  - vm_compute. reflexivity.
  - vm_compute. tauto.
Defined.

Lemma unanswered_row_counts_but_not_averaged_witness :
  let df' := {| columns := columns feedback; rows := rows feedback ++ [∅] |} in
  total_responses df' = S (total_responses feedback) ∧
  overall_avg df' = overall_avg feedback.
Proof.
  apply (unanswered_row_counts_but_not_averaged feedback ∅).
  intros c _. unfold cell_at. by rewrite lookup_empty.
Defined.

Lemma first_file_columns_lead_witness :
  ∃ own more,
    columns (load_data (survey_file :: feedback_files))
      = (normalize_label <$> header survey_file) ++ own ++ more ∧
    (own = [] ∧ "source_file" ∈ normalize_label <$> header survey_file ∨
     own = ["source_file"] ∧
     "source_file" ∉ normalize_label <$> header survey_file) ∧
    (∀ c, c ∈ more →
          c ≠ "source_file" ∧ c ∉ normalize_label <$> header survey_file).
Proof.
  apply (first_file_columns_lead survey_file feedback_files).
  apply (bool_decide_unpack _). vm_compute. exact I.
Defined.

Lemma added_columns_are_no_subjects_witness :
  ("source_file" ∉ ["b"; "c"]) ∧ ("mode" ∉ ["b"; "c"]).
Proof.
  apply (added_columns_are_no_subjects [survey_file] ["Distance"]
           ["MBA_Distance.csv"]).
  - intros f Hf. apply list_elem_of_singleton in Hf as ->.
    vm_compute. reflexivity.
  - intros m. destruct m; vm_compute; reflexivity.
  - vm_compute. reflexivity.
Defined.

(** The centres of the file with a blank one: the blank text is listed
    under the empty text, the missing cell is not. *)
Example centres_counts :
  lsc_tab centres = Shown [("Pune", 1%nat); ("", 1%nat)].
Proof. by vm_compute. Qed.
